(** * SmartStock Analytics: the [/sync] aggregation of [main.py]

    A shallow embedding of [sync_local_csv] (main.py, lines 80-135): the single
    pass over the rows of the CSV that fills three accumulators, followed by the
    delete-then-insert replacement of the three MongoDB collections; and of
    the endpoints and chart functions that read the three collections back.

    Conventions of the embedding.
    - A row of the data frame is a record; [row.get('nombre_producto', ...)] is a
      lookup of an optional column, so that field is an [option].
    - [iterrows] hands out the cells of a mixed-type row as Python objects, so
      identifiers and quantities are unbounded integers ([Z]).
    - [defaultdict] keeps insertion order and [items()] iterates in that order;
      the accumulators are therefore insertion-ordered association lists.
    - Text is held as its UTF-8 bytes; [strptime] reads the code points, as
      its pattern matches any decimal digit and any white space of Unicode.
    - An exception raised inside the [try] is a value [Raise e]; the handler
      turns it into the 500 response. The loop can raise on a date, and an
      insertion can raise on an integer that BSON cannot hold; by then the
      collections have been emptied.
    - The database is the triple of collections the function touches. *)

From Stdlib Require Import ZArith List String Ascii Bool Lia DecimalString.
From Stdlib Require Import Orders Sorted Permutation Mergesort.
Import ListNotations.
Open Scope string_scope.
Open Scope list_scope.
Open Scope Z_scope.

(** ** Insertion-ordered dictionaries *)

Section Dict.
Context {K V : Type}.
Variable eqb : K -> K -> bool.

Definition dict := list (K * V).

(** [d.get(k)]: the value bound to [k], if any. *)
Fixpoint get (d : dict) (k : K) : option V :=
  match d with
  | [] => None
  | (k', v) :: d' => if eqb k k' then Some v else get d' k
  end.

(** [d.get(k, dflt)], also the value read by [d[k]] on a [defaultdict]. *)
Definition getd (d : dict) (k : K) (dflt : V) : V :=
  match get d k with
  | Some v => v
  | None => dflt
  end.

(** [d[k] = v]: an existing key keeps its position, a new key goes last. *)
Fixpoint set (d : dict) (k : K) (v : V) : dict :=
  match d with
  | [] => [(k, v)]
  | (k', v') :: d' => if eqb k k' then (k', v) :: d' else (k', v') :: set d' k v
  end.

Definition keys (d : dict) : list K := map fst d.
Definition values (d : dict) : list V := map snd d.
End Dict.

Arguments dict : clear implicits.

(** [d[k] += c] on a [defaultdict(int)]. *)
Definition add_int {K : Type} (eqb : K -> K -> bool) (d : dict K Z) (k : K) (c : Z)
  : dict K Z :=
  set eqb d k (getd eqb d k 0 + c).

Definition sum_Z (l : list Z) : Z := fold_right Z.add 0 l.

(** ** Dates: [datetime.strptime] and [strftime("%B")] *)

Inductive Month :=
  | January | February | March | April | May | June
  | July | August | September | October | November | December.

Record datetime := {
  dt_year : Z;
  dt_month : Month;
  dt_day : Z;
  dt_hour : Z;
  dt_minute : Z;
  dt_second : Z
}.

Definition month_of_Z (m : Z) : option Month :=
  match m with
  | 1 => Some January | 2 => Some February | 3 => Some March
  | 4 => Some April | 5 => Some May | 6 => Some June
  | 7 => Some July | 8 => Some August | 9 => Some September
  | 10 => Some October | 11 => Some November | 12 => Some December
  | _ => None
  end.

(** The process never calls [setlocale], so [%B] uses the C locale and gives
    the English month name. *)
Definition strftime_B (d : datetime) : string :=
  match dt_month d with
  | January => "January" | February => "February" | March => "March"
  | April => "April" | May => "May" | June => "June"
  | July => "July" | August => "August" | September => "September"
  | October => "October" | November => "November" | December => "December"
  end.

(** [str.lower] on ASCII text. *)
Definition lower_ascii (c : ascii) : ascii :=
  let n := nat_of_ascii c in
  if (65 <=? n)%nat && (n <=? 90)%nat then ascii_of_nat (n + 32) else c.

Fixpoint lower (s : string) : string :=
  match s with
  | EmptyString => EmptyString
  | String c s' => String (lower_ascii c) (lower s')
  end.

(** The twelve keys [strftime("%B").lower()] can produce. *)
Definition meses_en : list string :=
  ["january"; "february"; "march"; "april"; "may"; "june";
   "july"; "august"; "september"; "october"; "november"; "december"].

(** The labels the reading endpoints look up (main.py, lines 66-67). *)
Definition labels : list string :=
  ["enero"; "febrero"; "marzo"; "abril"; "mayo"; "junio";
   "julio"; "agosto"; "septiembre"; "octubre"; "noviembre"; "diciembre"].

(** Python text is held as its UTF-8 bytes; [code_points] reads the code
    points back, and gives [None] on bytes that are the UTF-8 of no text. *)
Fixpoint utf8 (s : string) (need : nat) (cp low : N) : option (list N) :=
  match s with
  | EmptyString => match need with O => Some [] | S _ => None end
  | String c s' =>
      let b := N_of_ascii c in
      match need with
      | O =>
          if (b <? 128)%N then option_map (cons b) (utf8 s' 0 0%N 0%N)
          else if (194 <=? b)%N && (b <? 224)%N then utf8 s' 1 (b - 192)%N 128%N
          else if (224 <=? b)%N && (b <? 240)%N then utf8 s' 2 (b - 224)%N 2048%N
          else if (240 <=? b)%N && (b <? 245)%N then utf8 s' 3 (b - 240)%N 65536%N
          else None
      | S need' =>
          if (128 <=? b)%N && (b <? 192)%N then
            let cp' := (cp * 64 + (b - 128))%N in
            match need' with
            | O =>
                if (low <=? cp')%N && (cp' <? 1114112)%N
                   && negb ((55296 <=? cp')%N && (cp' <? 57344)%N)
                then option_map (cons cp') (utf8 s' 0 0%N 0%N)
                else None
            | S _ => utf8 s' need' cp' low
            end
          else None
      end
  end.

Definition code_points (s : string) : option (list N) := utf8 s 0 0%N 0%N.

(** The code points of the digit zero of every decimal digit set of Unicode
    14.0 (the category Nd, which [\d] and [int] go by); the nine code points
    after each are its digits 1 to 9. *)
Definition decimal_zeros : list N :=
  [
    48; 1632; 1776; 1984; 2406; 2534; 2662; 2790;
    2918; 3046; 3174; 3302; 3430; 3558; 3664; 3792;
    3872; 4160; 4240; 6112; 6160; 6470; 6608; 6784;
    6800; 6992; 7088; 7232; 7248; 42528; 43216; 43264;
    43472; 43504; 43600; 44016; 65296; 66720; 68912; 69734;
    69872; 69942; 70096; 70384; 70736; 70864; 71248; 71360;
    71472; 71904; 72016; 72784; 73040; 73120; 92768; 92864;
    93008; 120782; 120792; 120802; 120812; 120822; 123200; 123632;
    125264; 130032
  ]%N.

(** The value of a decimal digit, [None] for any other code point. *)
Definition decimal (c : N) : option Z :=
  match find (fun z => (z <=? c)%N && (c <? z + 10)%N) decimal_zeros with
  | Some z => Some (Z.of_N (c - z))
  | None => None
  end.

(** The code points matched by [\s]. *)
Definition whitespace : list N :=
  [
    9; 10; 11; 12; 13; 28; 29; 30; 31; 32;
    133; 160; 5760; 8192; 8193; 8194; 8195; 8196; 8197; 8198;
    8199; 8200; 8201; 8202; 8232; 8233; 8239; 8287; 12288
  ]%N.

Definition is_space (c : N) : bool := existsb (N.eqb c) whitespace.

(** A regular expression as a matcher: every way of matching a prefix of the
    text, in the order in which a backtracking matcher tries them, each with
    what it captured and the text left. *)
Definition re (A : Type) : Type := list N -> list (A * list N).

Definition re_pure {A : Type} (a : A) : re A := fun text => [(a, text)].

Definition re_bind {A B : Type} (p : re A) (f : A -> re B) : re B :=
  fun text => flat_map (fun r => f (fst r) (snd r)) (p text).

(** [p|q]. *)
Definition re_or {A : Type} (p q : re A) : re A := fun text => p text ++ q text.

Definition re_char {A : Type} (test : N -> option A) : re A :=
  fun text =>
    match text with
    | c :: rest => match test c with Some a => [(a, rest)] | None => [] end
    | [] => []
    end.

(** A literal character. *)
Definition re_lit (c : ascii) : re unit :=
  re_char (fun x => if (x =? N_of_ascii c)%N then Some tt else None).

(** [[lo-hi]] between two ASCII digits, with the value of the digit. *)
Definition re_range (lo hi : N) : re Z :=
  re_char (fun x => if (48 + lo <=? x)%N && (x <=? 48 + hi)%N
                    then Some (Z.of_N (x - 48)) else None).

(** [\d]. *)
Definition re_digit : re Z := re_char decimal.

(** [\s+], the longest run first. *)
Fixpoint re_spaces (text : list N) : list (unit * list N) :=
  match text with
  | c :: rest => if is_space c then re_spaces rest ++ [(tt, rest)] else []
  | [] => []
  end.

(** Two digits in a row, read as a number. *)
Definition re_two (p q : re Z) : re Z :=
  re_bind p (fun a => re_bind q (fun b => re_pure (10 * a + b))).

Notation "p ||| q" := (re_or p q) (at level 50, left associativity).

(** The directives as [_strptime.py] writes them. *)

(** [\d\d\d\d] *)
Definition re_Y : re Z :=
  re_bind (re_two re_digit re_digit) (fun hi =>
  re_bind (re_two re_digit re_digit) (fun lo => re_pure (100 * hi + lo))).

(** [1[0-2]|0[1-9]|[1-9]] *)
Definition re_m : re Z :=
  re_two (re_range 1 1) (re_range 0 2)
  ||| re_two (re_range 0 0) (re_range 1 9)
  ||| re_range 1 9.

(** [3[0-1]|[1-2]\d|0[1-9]|[1-9]| [1-9]] *)
Definition re_d : re Z :=
  re_two (re_range 3 3) (re_range 0 1)
  ||| re_two (re_range 1 2) re_digit
  ||| re_two (re_range 0 0) (re_range 1 9)
  ||| re_range 1 9
  ||| re_bind (re_lit " ") (fun _ => re_range 1 9).

(** [2[0-3]|[0-1]\d|\d] *)
Definition re_H : re Z :=
  re_two (re_range 2 2) (re_range 0 3)
  ||| re_two (re_range 0 1) re_digit
  ||| re_digit.

(** [[0-5]\d|\d] *)
Definition re_M : re Z :=
  re_two (re_range 0 5) re_digit ||| re_digit.

(** [6[0-1]|[0-5]\d|\d] *)
Definition re_S : re Z :=
  re_two (re_range 6 6) (re_range 0 1)
  ||| re_two (re_range 0 5) re_digit
  ||| re_digit.

(** The pattern of the format "%Y-%m-%d %H:%M:%S": the blank stands for
    [\s+]. *)
Definition format_regex : re (Z * Z * Z * Z * Z * Z) :=
  re_bind re_Y (fun year =>
  re_bind (re_lit "-") (fun _ =>
  re_bind re_m (fun month =>
  re_bind (re_lit "-") (fun _ =>
  re_bind re_d (fun day =>
  re_bind re_spaces (fun _ =>
  re_bind re_H (fun hour =>
  re_bind (re_lit ":") (fun _ =>
  re_bind re_M (fun minute =>
  re_bind (re_lit ":") (fun _ =>
  re_bind re_S (fun second =>
  re_pure (year, month, day, hour, minute, second)))))))))))).

Definition is_leap (y : Z) : bool :=
  ((y mod 4 =? 0) && negb (y mod 100 =? 0)) || (y mod 400 =? 0).

Definition days_in_month (y : Z) (m : Month) : Z :=
  match m with
  | February => if is_leap y then 29 else 28
  | April | June | September | November => 30
  | _ => 31
  end.

(** The date-time built from the six numbers; [None] is the [ValueError] of
    the year 0, of a day the month does not have, or of a second above 59. *)
Definition make_datetime (f : Z * Z * Z * Z * Z * Z) : option datetime :=
  let '(year, month, day, hour, minute, second) := f in
  match month_of_Z month with
  | Some mo =>
      if (1 <=? year) && (day <=? days_in_month year mo) && (second <=? 59)
      then Some {| dt_year := year; dt_month := mo; dt_day := day;
                   dt_hour := hour; dt_minute := minute; dt_second := second |}
      else None
  | None => None
  end.

(** [datetime.strptime(s, "%Y-%m-%d %H:%M:%S")]: the first match of the
    pattern at the start of the text is taken; [None] is the [ValueError] of
    a text the pattern does not match, of text left over after the match, or
    of a date that does not exist. *)
Definition strptime (s : string) : option datetime :=
  match code_points s with
  | Some text =>
      match format_regex text with
      | (fields, []) :: _ => make_datetime fields
      | _ => None
      end
  | None => None
  end.

(** ** Rows, exceptions and documents *)

(** What the [fecha] cell of a row can hold: text, a date-time value, or the
    float NaN of an empty cell. *)
Inductive Fecha :=
  | FechaStr (s : string)
  | FechaDatetime (d : datetime)
  | FechaNaN.

Record Row := {
  producto_id : Z;
  nombre_producto : option string;
  tipo : string;
  cantidad : Z;
  fecha : Fecha
}.

Inductive Exception :=
  | ValueError
  | AttributeError
  | OverflowError.

Inductive Result (A : Type) :=
  | Ok (a : A)
  | Raise (e : Exception).

Arguments Ok {A} a.
Arguments Raise {A} e.

Definition bind {A B : Type} (r : Result A) (f : A -> Result B) : Result B :=
  match r with
  | Ok a => f a
  | Raise e => Raise e
  end.

Notation "x <- e ;; k" := (bind e (fun x => k))
  (at level 61, e at next level, right associativity).

(** [for x in xs: acc = body(acc, x)], leaving at the first exception. *)
Fixpoint for_each {A S : Type} (body : S -> A -> Result S) (xs : list A) (s : S)
  : Result S :=
  match xs with
  | [] => Ok s
  | x :: xs' => s' <- body s x ;; for_each body xs' s'
  end.

Record Venta := {
  venta_producto_id : Z;
  venta_nombre_producto : string;
  venta_total_ventas : Z
}.

Record Alerta := {
  alerta_producto_id : Z;
  alerta_nombre_producto : string;
  alerta_stock_actual : Z;
  alerta_estado : string
}.

Record Estacionalidad := {
  est_producto_id : Z;
  est_nombre_producto : string;
  est_ventas_por_mes : dict string Z
}.

Record DB := {
  ventas_aggregadas : list Venta;
  alertas_stock : list Alerta;
  estacionalidad : list Estacionalidad
}.

Inductive Response :=
  | Response200 (message : string)
  | Response500 (e : Exception).

(** ** [sync_local_csv] *)

Record Acc := {
  ventas_totales : dict Z Z;
  ventas_por_mes : dict Z (dict string Z);
  stock_actual : dict Z Z
}.

Definition acc0 : Acc :=
  {| ventas_totales := []; ventas_por_mes := []; stock_actual := [] |}.

(** [f"Producto {producto_id}"]. *)
Definition nombre_base (producto_id : Z) : string :=
  String.append "Producto " (NilZero.string_of_int (Z.to_int producto_id)).

(** [row.get('nombre_producto', f"Producto {producto_id}")] (line 90). *)
Definition row_nombre_producto (row : Row) : string :=
  match nombre_producto row with
  | Some n => n
  | None => nombre_base (producto_id row)
  end.

(** Lines 100-101: a text is parsed, anything else is used as it is; [%B] on
    a float raises [AttributeError]. *)
Definition fecha_datetime (f : Fecha) : Result datetime :=
  match f with
  | FechaStr s =>
      match strptime s with
      | Some d => Ok d
      | None => Raise ValueError
      end
  | FechaDatetime d => Ok d
  | FechaNaN => Raise AttributeError
  end.

(** [ventas_por_mes[producto_id][mes] += cantidad] on the nested
    [defaultdict]. *)
Definition add_mes (vpm : dict Z (dict string Z)) (pid : Z) (mes : string) (c : Z)
  : dict Z (dict string Z) :=
  set Z.eqb vpm pid (add_int String.eqb (getd Z.eqb vpm pid []) mes c).

(** The body of the loop over the rows (lines 88-103). The name read on line
    90 is bound and not used again. *)
Definition loop_body (acc : Acc) (row : Row) : Result Acc :=
  let pid := producto_id row in
  let nombre := row_nombre_producto row in
  let cant := cantidad row in
  if String.eqb (tipo row) "entrada" then
    Ok {| ventas_totales := ventas_totales acc;
          ventas_por_mes := ventas_por_mes acc;
          stock_actual := add_int Z.eqb (stock_actual acc) pid cant |}
  else if String.eqb (tipo row) "salida" then
    let stock := add_int Z.eqb (stock_actual acc) pid (- cant) in
    let ventas := add_int Z.eqb (ventas_totales acc) pid cant in
    d <- fecha_datetime (fecha row) ;;
    let mes := lower (strftime_B d) in
    Ok {| ventas_totales := ventas;
          ventas_por_mes := add_mes (ventas_por_mes acc) pid mes cant;
          stock_actual := stock |}
  else Ok acc.

Definition CRITICO : string := "CRÍTICO".
Definition BAJO : string := "BAJO".
Definition NORMAL : string := "NORMAL".

(** Line 119. *)
Definition estado_de (stock : Z) : string :=
  if stock <? 10 then CRITICO else if stock <? 50 then BAJO else NORMAL.

(** [collection.delete_many({})]. *)
Definition delete_many {A : Type} (coll : list A) : list A := [].

(** An integer BSON can hold: 64 bits, signed. *)
Definition int64 (z : Z) : bool := (- 2 ^ 63 <=? z) && (z <? 2 ^ 63).

(** [collection.insert_one(doc)]: the document goes last; an integer that
    BSON cannot hold raises [OverflowError] and nothing is inserted. *)
Definition insert_one {A : Type} (bson : A -> bool) (coll : list A) (doc : A)
  : Result (list A) :=
  if bson doc then Ok (coll ++ [doc]) else Raise OverflowError.

(** The documents whose integers BSON can hold. *)
Definition venta_bson (v : Venta) : bool :=
  int64 (venta_producto_id v) && int64 (venta_total_ventas v).

Definition alerta_bson (a : Alerta) : bool :=
  int64 (alerta_producto_id a) && int64 (alerta_stock_actual a).

Definition est_bson (e : Estacionalidad) : bool :=
  int64 (est_producto_id e)
  && forallb (fun kv => int64 (snd kv)) (est_ventas_por_mes e).

Definition venta_doc (kv : Z * Z) : Venta :=
  {| venta_producto_id := fst kv;
     venta_nombre_producto := nombre_base (fst kv);
     venta_total_ventas := snd kv |}.

Definition alerta_doc (kv : Z * Z) : Alerta :=
  {| alerta_producto_id := fst kv;
     alerta_nombre_producto := nombre_base (fst kv);
     alerta_stock_actual := snd kv;
     alerta_estado := estado_de (snd kv) |}.

Definition est_doc (kv : Z * dict string Z) : Estacionalidad :=
  {| est_producto_id := fst kv;
     est_nombre_producto := nombre_base (fst kv);
     est_ventas_por_mes := snd kv |}.

(** One of the loops of lines 111-132: a document is built and inserted for
    each item of an accumulator, in order; the loop gives the collection as it
    is when it ends, or when an insertion raises. *)
Fixpoint insert_each {K V A : Type} (bson : A -> bool) (doc : K * V -> A)
  (items : dict K V) (coll : list A) : list A * Result unit :=
  match items with
  | [] => (coll, Ok tt)
  | kv :: items' =>
      match insert_one bson coll (doc kv) with
      | Ok coll' => insert_each bson doc items' coll'
      | Raise e => (coll, Raise e)
      end
  end.

(** Lines 105-132: the three collections are emptied, then one document is
    inserted per key of each accumulator, sales first, then alerts, then
    seasonality. An exception leaves the database as it is at that moment. *)
Definition commit (db : DB) (acc : Acc) : DB * Result unit :=
  let v0 := delete_many (ventas_aggregadas db) in
  let a0 := delete_many (alertas_stock db) in
  let e0 := delete_many (estacionalidad db) in
  let (v, r1) := insert_each venta_bson venta_doc (ventas_totales acc) v0 in
  match r1 with
  | Raise e =>
      ({| ventas_aggregadas := v; alertas_stock := a0; estacionalidad := e0 |},
       Raise e)
  | Ok _ =>
      let (a, r2) := insert_each alerta_bson alerta_doc (stock_actual acc) a0 in
      match r2 with
      | Raise e =>
          ({| ventas_aggregadas := v; alertas_stock := a; estacionalidad := e0 |},
           Raise e)
      | Ok _ =>
          let (e, r3) := insert_each est_bson est_doc (ventas_por_mes acc) e0 in
          ({| ventas_aggregadas := v; alertas_stock := a; estacionalidad := e |},
           r3)
      end
  end.

Definition mensaje_ok : string := "Sincronización local completada exitosamente.".

(** The rows of the CSV are the argument [df]; the database is passed in and
    returned with the response. An exception of the loop comes before the
    collections are touched; an exception of an insertion comes after they
    were emptied. *)
Definition sync_local_csv (db : DB) (df : list Row) : DB * Response :=
  match for_each loop_body df acc0 with
  | Ok acc =>
      match commit db acc with
      | (db', Ok _) => (db', Response200 mensaje_ok)
      | (db', Raise e) => (db', Response500 e)
      end
  | Raise e => (db, Response500 e)
  end.

(** The three collections when every insertion goes through. *)
Definition todo_escrito (acc : Acc) : DB :=
  {| ventas_aggregadas := map venta_doc (ventas_totales acc);
     alertas_stock := map alerta_doc (stock_actual acc);
     estacionalidad := map est_doc (ventas_por_mes acc) |}.

(** Every document to write holds integers of 64 bits. *)
Definition cabe (acc : Acc) : bool :=
  forallb venta_bson (ventas_aggregadas (todo_escrito acc))
  && forallb alerta_bson (alertas_stock (todo_escrito acc))
  && forallb est_bson (estacionalidad (todo_escrito acc)).

(** [part] is the beginning of [whole]. *)
Definition prefijo {A : Type} (part whole : list A) : Prop :=
  exists rest, whole = part ++ rest.

(** ** What the rows of a batch add up to *)

Definition es_entrada (r : Row) : bool := String.eqb (tipo r) "entrada".
Definition es_salida (r : Row) : bool := String.eqb (tipo r) "salida".
Definition de_producto (p : Z) (r : Row) : bool := producto_id r =? p.

Definition total_salidas (df : list Row) : Z :=
  sum_Z (map cantidad (filter es_salida df)).

Definition entradas_de (p : Z) (df : list Row) : Z :=
  sum_Z (map cantidad (filter (fun r => es_entrada r && de_producto p r) df)).

Definition salidas_de (p : Z) (df : list Row) : Z :=
  sum_Z (map cantidad (filter (fun r => es_salida r && de_producto p r) df)).

(** The sum a reader obtains with [ventas_por_mes.get(mes, 0)] over the twelve
    month keys. *)
Definition suma_meses (ventas_mes : dict string Z) : Z :=
  sum_Z (map (fun mes => getd String.eqb ventas_mes mes 0) meses_en).

(** A [fecha] cell the [salida] branch accepts. *)
Definition fecha_ok (f : Fecha) : bool :=
  match f with
  | FechaStr s => match strptime s with Some _ => true | None => false end
  | FechaDatetime _ => true
  | FechaNaN => false
  end.

(** ** Batches and predicates used in the statements *)

(** The accumulators after an [entrada] row and after a [salida] row whose
    date falls in month [mes]. *)
Definition tras_entrada (acc : Acc) (r : Row) : Acc :=
  {| ventas_totales := ventas_totales acc;
     ventas_por_mes := ventas_por_mes acc;
     stock_actual := add_int Z.eqb (stock_actual acc) (producto_id r) (cantidad r) |}.

Definition tras_salida (acc : Acc) (r : Row) (mes : string) : Acc :=
  {| ventas_totales := add_int Z.eqb (ventas_totales acc) (producto_id r) (cantidad r);
     ventas_por_mes := add_mes (ventas_por_mes acc) (producto_id r) mes (cantidad r);
     stock_actual := add_int Z.eqb (stock_actual acc) (producto_id r) (- cantidad r) |}.

(** Product [p] has a [salida] row in the batch; it has an [entrada] or a
    [salida] row in the batch. *)
Definition con_salida (p : Z) (df : list Row) : Prop :=
  exists r, In r df /\ es_salida r = true /\ producto_id r = p.

Definition con_movimiento (p : Z) (df : list Row) : Prop :=
  exists r, In r df /\ (es_entrada r = true \/ es_salida r = true) /\ producto_id r = p.

(** The documents of a collection that carry identifier [p]. *)
Definition ventas_de (p : Z) (db : DB) : list Venta :=
  filter (fun v => venta_producto_id v =? p) (ventas_aggregadas db).

Definition alertas_de (p : Z) (db : DB) : list Alerta :=
  filter (fun a => alerta_producto_id a =? p) (alertas_stock db).

Definition estacionalidad_de (p : Z) (db : DB) : list Estacionalidad :=
  filter (fun e => est_producto_id e =? p) (estacionalidad db).

(** A row without a name column whose [fecha] is text. *)
Definition fila (p : Z) (t : string) (c : Z) (f : string) : Row :=
  {| producto_id := p; nombre_producto := None; tipo := t; cantidad := c;
     fecha := FechaStr f |}.

Definition db_vacia : DB :=
  {| ventas_aggregadas := []; alertas_stock := []; estacionalidad := [] |}.

(** One product: 100 received, then 30 sold in January and 20 in February. *)
Definition escenario : list Row :=
  [ fila 1 "entrada" 100 "2024-01-01 00:00:00";
    fila 1 "salida" 30 "2024-01-15 00:00:00";
    fila 1 "salida" 20 "2024-02-01 00:00:00" ].

(** A batch with two products, a supplied name, a row of unknown type, an
    [entrada] whose date is not a date, and more sold than received for
    product 2. *)
Definition ejemplo : list Row :=
  [ {| producto_id := 1; nombre_producto := Some "Martillo"; tipo := "entrada";
       cantidad := 100; fecha := FechaStr "2024-01-01 00:00:00" |};
    {| producto_id := 2; nombre_producto := None; tipo := "salida";
       cantidad := 5; fecha := FechaStr "2024-03-10 08:30:00" |};
    {| producto_id := 1; nombre_producto := Some "Martillo"; tipo := "salida";
       cantidad := 30; fecha := FechaStr "2023-01-15 00:00:00" |};
    {| producto_id := 3; nombre_producto := None; tipo := "ajuste";
       cantidad := 7; fecha := FechaNaN |};
    {| producto_id := 1; nombre_producto := Some "Martillo"; tipo := "entrada";
       cantidad := 4; fecha := FechaStr "sin fecha" |} ].

Definition db_ejemplo : DB := fst (sync_local_csv db_vacia ejemplo).

(** A [salida] row dated with slashes. *)
Definition lote_fecha_mala : list Row :=
  [ fila 1 "entrada" 100 "2024-01-01 00:00:00";
    fila 1 "salida" 30 "2024/01/01" ].


(** The row takes one of the two branches of the loop. *)
Definition tipo_conocido (r : Row) : bool := es_entrada r || es_salida r.

(** A single row of a type the loop has no branch for. *)
Definition lote_ajuste : list Row :=
  [ fila 3 "ajuste" 7 "2024-01-01 00:00:00" ].

(** The row without its name column. *)
Definition sin_nombre (r : Row) : Row :=
  {| producto_id := producto_id r; nombre_producto := None; tipo := tipo r;
     cantidad := cantidad r; fecha := fecha r |}.

(** ** The reading side: [get_top_ventas], [get_alertas_stock],
    [get_ventas_estacionalidad] and the data of the three charts *)

(** [sort("total_ventas", -1)]: the larger total comes first. *)
Module VentaOrder <: Orders.TotalLeBool.
Definition t := Venta.
Definition leb (x y : Venta) : bool :=
  venta_total_ventas y <=? venta_total_ventas x.
Theorem leb_total : forall x y, is_true (leb x y) \/ is_true (leb y x).
Proof.
  intros x y. unfold leb, is_true. rewrite !Z.leb_le. lia.
Qed.
End VentaOrder.

Module VentaSort := Mergesort.Sort VentaOrder.

(** [cursor.limit(n)] for a limit that is not negative: 0 asks for every
    document. *)
Definition limit {A : Type} (n : N) (docs : list A) : list A :=
  if (n =? 0)%N then docs else firstn (N.to_nat n) docs.

(** Lines 40 and 179: the documents behind the response of
    [get_top_ventas] and behind the bars of [graficar_top_ventas]. *)
Definition top_ventas (db : DB) (n : N) : list Venta :=
  limit n (VentaSort.sort (ventas_aggregadas db)).

(** Lines 39-43; every document of the collection has its name, so the
    default of [venta.get] is not used. *)
Definition get_top_ventas (db : DB) (n : N) : list string * list Z :=
  let ventas := top_ventas db n in
  (map venta_nombre_producto ventas, map venta_total_ventas ventas).

(** Lines 49 and 194. *)
Definition conteo0 : dict string Z := [(CRITICO, 0); (BAJO, 0); (NORMAL, 0)].

(** [conteo[estado] += 1] on a plain [dict]: [None] is the [KeyError] of a
    state that is not a key. *)
Definition contar (conteo : dict string Z) (alerta : Alerta)
  : option (dict string Z) :=
  match get String.eqb conteo (alerta_estado alerta) with
  | Some n => Some (set String.eqb conteo (alerta_estado alerta) (n + 1))
  | None => None
  end.

Fixpoint contar_todas (alertas : list Alerta) (conteo : dict string Z)
  : option (dict string Z) :=
  match alertas with
  | [] => Some conteo
  | alerta :: alertas' =>
      match contar conteo alerta with
      | Some conteo' => contar_todas alertas' conteo'
      | None => None
      end
  end.

(** Lines 47-55, and the slices of the pie of [graficar_alertas_stock]
    (lines 193-200); nothing catches the [KeyError]. *)
Definition get_alertas_stock (db : DB) : option (list string * list Z) :=
  match contar_todas (alertas_stock db) conteo0 with
  | Some conteo => Some (keys conteo, values conteo)
  | None => None
  end.

(** Lines 72-73 and 216-217: the name of a document and what
    [ventas_por_mes.get(mes, 0)] gives under each of the twelve labels. *)
Definition dataset (dato : Estacionalidad) : string * list Z :=
  (est_nombre_producto dato,
   map (fun mes => getd String.eqb (est_ventas_por_mes dato) mes 0) labels).

(** What [$sample] of size 5 can hand out from the collection. *)
Definition es_muestra (db : DB) (muestra : list Estacionalidad) : Prop :=
  incl muestra (estacionalidad db)
  /\ (List.length muestra <= 5)%nat
  /\ (muestra = [] <-> estacionalidad db = []).

(** Lines 59-76, given the documents drawn by [$sample]; [None] is the 404
    raised when nothing was drawn. *)
Definition get_ventas_estacionalidad (muestra : list Estacionalidad)
  : option (list string * list (string * list Z)) :=
  match muestra with
  | [] => None
  | _ => Some (labels, map dataset muestra)
  end.

(** Lines 209-217: the three curves drawn by [graficar_estacionalidad]. *)
Definition curvas_estacionalidad (db : DB) : list (string * list Z) :=
  map dataset (firstn 3 (estacionalidad db)).

(** ** More predicates used in the statements *)

(** The exception the [salida] branch raises on a [fecha] it cannot use. *)
Definition excepcion_de (f : Fecha) : Exception :=
  match f with
  | FechaNaN => AttributeError
  | _ => ValueError
  end.

(** A [salida] row on which the loop stops. *)
Definition fila_mala (r : Row) : bool := es_salida r && negb (fecha_ok (fecha r)).

(** The row is a [salida] dated in the month [mes]. *)
Definition en_mes (mes : string) (r : Row) : bool :=
  match fecha_datetime (fecha r) with
  | Ok d => String.eqb (lower (strftime_B d)) mes
  | Raise _ => false
  end.

Definition salidas_de_mes (p : Z) (mes : string) (df : list Row) : Z :=
  sum_Z (map cantidad
           (filter (fun r => es_salida r && de_producto p r && en_mes mes r) df)).

(** The spec's exact pattern YYYY-MM-DD HH:MM:SS: nineteen characters with
    an ASCII digit in each of the fourteen digit places. *)
Definition digito_ascii (c : ascii) : bool :=
  (48 <=? N_of_ascii c)%N && (N_of_ascii c <=? 57)%N.

Definition patron_exacto (s : string) : bool :=
  match list_ascii_of_string s with
  | [y1; y2; y3; y4; g1; m1; m2; g2; d1; d2; b; h1; h2; c1; n1; n2; c2; s1; s2] =>
      forallb digito_ascii [y1; y2; y3; y4; m1; m2; d1; d2; h1; h2; n1; n2; s1; s2]
      && Ascii.eqb g1 "-" && Ascii.eqb g2 "-" && Ascii.eqb b " "
      && Ascii.eqb c1 ":" && Ascii.eqb c2 ":"
  | _ => false
  end.

(** The absolute quantities of a batch, added up; and a batch whose
    identifiers hold in 64 bits and whose quantities cannot add up, in any
    accumulator, to a number that does not. *)
Definition volumen (df : list Row) : Z :=
  sum_Z (map (fun r => Z.abs (cantidad r)) df).


(** A [salida] row dated without leading zeros. *)
Definition lote_sin_relleno : list Row :=
  [ fila 1 "salida" 30 "2024-1-5 1:2:3" ].


(** Two products sold, the second one in a quantity of 2^63. *)
Definition lote_medio : list Row :=
  [ fila 1 "salida" 5 "2024-01-01 00:00:00";
    fila 2 "salida" 9223372036854775808 "2024-01-02 00:00:00" ].

(** The identifiers of a list, each once, in the order of first appearance. *)
Definition agregar (ids : list Z) (p : Z) : list Z :=
  if existsb (Z.eqb p) ids then ids else ids ++ [p].

Definition primeras (ids : list Z) : list Z := fold_left agregar ids [].

(** The three keys of [conteo], and how many alerts carry a given state. *)
Definition estados : list string := [CRITICO; BAJO; NORMAL].

Definition cuenta_estado (estado : string) (alertas : list Alerta) : Z :=
  Z.of_nat (List.length
              (filter (fun a => String.eqb (alerta_estado a) estado) alertas)).

(** The sales order of [sort("total_ventas", -1)] on the totals. *)
Definition descendente (a b : Z) : Prop := b <= a.

(** How many alerts of a collection carry a stock that satisfies [cond]. *)
Definition cuenta_stock (cond : Z -> bool) (db : DB) : Z :=
  Z.of_nat (List.length (filter (fun a => cond (alerta_stock_actual a))
                                (alertas_stock db))).

(** Every inner dictionary has distinct keys among the twelve month names. *)
Definition meses_ok (vpm : dict Z (dict string Z)) : Prop :=
  forall p inner, In (p, inner) vpm ->
                  incl (keys inner) meses_en /\ NoDup (keys inner).

(** A batch with three products: product 1 sells in January of two years,
    product 2 is only received, product 3 sells more than it receives. *)
Definition lote_tres : list Row :=
  [ fila 1 "entrada" 100 "2024-01-01 00:00:00";
    fila 2 "entrada" 20 "2024-01-02 00:00:00";
    fila 1 "salida" 30 "2023-01-15 00:00:00";
    fila 3 "salida" 45 "2024-03-01 12:00:00";
    fila 1 "salida" 12 "2024-01-20 00:00:00";
    fila 1 "salida" 8 "2024-07-04 00:00:00" ].

Definition db_tres : DB := fst (sync_local_csv db_vacia lote_tres).

(** A collection holding an alert whose state is none of the three. *)
Definition db_estado_ajeno : DB :=
  {| ventas_aggregadas := [];
     alertas_stock :=
       [ {| alerta_producto_id := 1; alerta_nombre_producto := "Producto 1";
            alerta_stock_actual := 5; alerta_estado := "AGOTADO" |} ];
     estacionalidad := [] |}.

(** ** Facts about dictionaries *)

Section DictFacts.
Context {K V : Type}.
Variable eqb : K -> K -> bool.
Hypothesis eqb_spec : forall x y, reflect (x = y) (eqb x y).

Lemma get_set_same (d : dict K V) k v : get eqb (set eqb d k v) k = Some v.
Proof.
  induction d as [|[k' v'] d IH]; simpl.
  - destruct (eqb_spec k k); congruence.
  - destruct (eqb_spec k k') as [->|Hne]; simpl.
    + destruct (eqb_spec k' k'); congruence.
    + destruct (eqb_spec k k'); [contradiction|exact IH].
Qed.

Lemma get_set_other (d : dict K V) k k0 v :
  k0 <> k -> get eqb (set eqb d k v) k0 = get eqb d k0.
Proof.
  intros Hne. induction d as [|[k' v'] d IH]; simpl.
  - destruct (eqb_spec k0 k); [contradiction|reflexivity].
  - destruct (eqb_spec k k') as [->|Hk]; simpl.
    + destruct (eqb_spec k0 k'); [contradiction|reflexivity].
    + destruct (eqb_spec k0 k'); [reflexivity|exact IH].
Qed.

Lemma getd_set_same (d : dict K V) k v dflt : getd eqb (set eqb d k v) k dflt = v.
Proof. unfold getd. now rewrite get_set_same. Qed.

Lemma getd_set_other (d : dict K V) k k0 v dflt :
  k0 <> k -> getd eqb (set eqb d k v) k0 dflt = getd eqb d k0 dflt.
Proof. intros H. unfold getd. now rewrite get_set_other. Qed.

Lemma in_keys_set (d : dict K V) k v k0 :
  In k0 (keys (set eqb d k v)) <-> k0 = k \/ In k0 (keys d).
Proof.
  induction d as [|[k' v'] d IH]; simpl.
  - intuition congruence.
  - destruct (eqb_spec k k') as [->|Hk]; simpl.
    + intuition congruence.
    + rewrite IH. intuition congruence.
Qed.

Lemma NoDup_keys_set (d : dict K V) k v :
  NoDup (keys d) -> NoDup (keys (set eqb d k v)).
Proof.
  induction d as [|[k' v'] d IH]; simpl; intros Hnd.
  - constructor; [intros []|constructor].
  - inversion Hnd as [|? ? Hnot Hnd']; subst.
    destruct (eqb_spec k k') as [->|Hk]; simpl.
    + constructor; assumption.
    + constructor; [|now apply IH].
      intros Hin. apply (in_keys_set d k v k') in Hin.
      destruct Hin as [->|Hin]; [now apply Hk|now apply Hnot].
Qed.

Lemma get_None_not_in (d : dict K V) k : get eqb d k = None <-> ~ In k (keys d).
Proof.
  induction d as [|[k' v'] d IH]; simpl.
  - intuition.
  - destruct (eqb_spec k k') as [->|Hk].
    + split; [discriminate|intros H; exfalso; apply H; now left].
    + rewrite IH. intuition congruence.
Qed.

Lemma in_keys_get (d : dict K V) k : In k (keys d) -> exists v, get eqb d k = Some v.
Proof.
  intros Hin. destruct (get eqb d k) as [v|] eqn:E; [now exists v|].
  apply get_None_not_in in E. contradiction.
Qed.

Lemma in_NoDup_get (d : dict K V) k v :
  NoDup (keys d) -> In (k, v) d -> get eqb d k = Some v.
Proof.
  induction d as [|[k' v'] d IH]; simpl; intros Hnd Hin; [contradiction|].
  inversion Hnd as [|? ? Hnot Hnd']; subst.
  destruct Hin as [Heq|Hin].
  - inversion Heq; subst. destruct (eqb_spec k k); congruence.
  - destruct (eqb_spec k k') as [->|Hk]; [|now apply IH].
    exfalso. apply Hnot. change k' with (fst (k', v)). now apply in_map.
Qed.
End DictFacts.

Lemma sum_values_set {K : Type} (eqb : K -> K -> bool) (d : dict K Z) k v :
  sum_Z (values (set eqb d k v)) = sum_Z (values d) - getd eqb d k 0 + v.
Proof.
  unfold getd. induction d as [|[k' v'] d IH]; simpl.
  - lia.
  - destruct (eqb k k'); simpl; [lia|]. rewrite IH. lia.
Qed.

Lemma sum_values_add_int {K : Type} (eqb : K -> K -> bool) (d : dict K Z) k c :
  sum_Z (values (add_int eqb d k c)) = sum_Z (values d) + c.
Proof. unfold add_int. rewrite sum_values_set. lia. Qed.

(** ** The loop, one row at a time *)

Lemma es_salida_no_entrada r : es_salida r = true -> es_entrada r = false.
Proof.
  unfold es_salida, es_entrada. intros H.
  apply String.eqb_eq in H. rewrite H. reflexivity.
Qed.

Lemma loop_body_entrada acc r :
  es_entrada r = true -> loop_body acc r = Ok (tras_entrada acc r).
Proof. unfold loop_body, es_entrada. intros ->. reflexivity. Qed.

Lemma loop_body_salida acc r :
  es_salida r = true ->
  loop_body acc r =
    d <- fecha_datetime (fecha r) ;; Ok (tras_salida acc r (lower (strftime_B d))).
Proof.
  intros H. pose proof (es_salida_no_entrada r H) as H'.
  unfold loop_body, es_entrada, es_salida in *. rewrite H', H. reflexivity.
Qed.

Lemma loop_body_otro acc r :
  es_entrada r = false -> es_salida r = false -> loop_body acc r = Ok acc.
Proof. unfold loop_body, es_entrada, es_salida. intros -> ->. reflexivity. Qed.

Lemma loop_body_inv acc r acc1 :
  loop_body acc r = Ok acc1 ->
  (es_entrada r = true /\ es_salida r = false /\ acc1 = tras_entrada acc r)
  \/ (es_entrada r = false /\ es_salida r = true /\
      exists d, fecha_datetime (fecha r) = Ok d /\
                acc1 = tras_salida acc r (lower (strftime_B d)))
  \/ (es_entrada r = false /\ es_salida r = false /\ acc1 = acc).
Proof.
  intros H. destruct (es_salida r) eqn:Hs.
  - rewrite (loop_body_salida _ _ Hs) in H. right; left.
    split; [now apply es_salida_no_entrada|split; [reflexivity|]].
    destruct (fecha_datetime (fecha r)) as [d|e]; simpl in H; [|discriminate].
    exists d. split; congruence.
  - destruct (es_entrada r) eqn:He.
    + rewrite (loop_body_entrada _ _ He) in H. left. repeat split; congruence.
    + rewrite (loop_body_otro _ _ He Hs) in H. right; right. repeat split; congruence.
Qed.

(** Induction over a run of the loop that ends without an exception. *)
Lemma for_each_loop_ind (Q : list Row -> Acc -> Acc -> Prop) :
  (forall acc, Q [] acc acc) ->
  (forall r df acc acc1 acc',
      loop_body acc r = Ok acc1 -> Q df acc1 acc' -> Q (r :: df) acc acc') ->
  forall df acc acc', for_each loop_body df acc = Ok acc' -> Q df acc acc'.
Proof.
  intros Hnil Hcons. induction df as [|r df IH]; simpl; intros acc acc' H.
  - inversion H; subst. apply Hnil.
  - destruct (loop_body acc r) as [acc1|e] eqn:E; simpl in H; [|discriminate].
    eapply Hcons; eauto.
Qed.

Lemma mes_en_meses d : In (lower (strftime_B d)) meses_en.
Proof.
  unfold strftime_B. destruct (dt_month d); vm_compute; tauto.
Qed.

Lemma NoDup_meses_en : NoDup meses_en.
Proof.
  unfold meses_en. repeat constructor; simpl; intuition discriminate.
Qed.

Lemma sum_getd_set (d : dict string Z) k v (L : list string) :
  NoDup L -> In k L ->
  sum_Z (map (fun m => getd String.eqb (set String.eqb d k v) m 0) L)
  = sum_Z (map (fun m => getd String.eqb d m 0) L) - getd String.eqb d k 0 + v.
Proof.
  assert (Hout : forall L', ~ In k L' ->
            map (fun m => getd String.eqb (set String.eqb d k v) m 0) L'
            = map (fun m => getd String.eqb d m 0) L').
  { intros L' Hn. apply map_ext_in. intros m Hm.
    apply (getd_set_other String.eqb String.eqb_spec). intros ->. contradiction. }
  induction L as [|m L IH]; intros Hnd Hin; [contradiction|].
  inversion Hnd as [|? ? Hnot Hnd']; subst. simpl.
  destruct Hin as [->|Hin].
  - rewrite (getd_set_same String.eqb String.eqb_spec), (Hout L Hnot). lia.
  - rewrite IH by assumption.
    rewrite (getd_set_other String.eqb String.eqb_spec); [lia|].
    intros ->. contradiction.
Qed.

Lemma suma_meses_add_int inner mes c :
  In mes meses_en ->
  suma_meses (add_int String.eqb inner mes c) = suma_meses inner + c.
Proof.
  intros Hin. unfold suma_meses, add_int.
  rewrite (sum_getd_set _ _ _ _ NoDup_meses_en Hin). lia.
Qed.

Lemma getd_add_int (d : dict Z Z) k c p :
  getd Z.eqb (add_int Z.eqb d k c) p 0
  = getd Z.eqb d p 0 + (if k =? p then c else 0).
Proof.
  unfold add_int. destruct (Z.eqb_spec k p) as [->|Hne].
  - now rewrite (getd_set_same Z.eqb Z.eqb_spec).
  - rewrite (getd_set_other Z.eqb Z.eqb_spec) by congruence. lia.
Qed.

Lemma total_salidas_cons r df :
  total_salidas (r :: df) = (if es_salida r then cantidad r else 0) + total_salidas df.
Proof. unfold total_salidas. simpl. destruct (es_salida r); reflexivity. Qed.

Lemma entradas_de_cons p r df :
  entradas_de p (r :: df)
  = (if es_entrada r && de_producto p r then cantidad r else 0) + entradas_de p df.
Proof.
  unfold entradas_de. simpl. destruct (es_entrada r && de_producto p r); reflexivity.
Qed.

Lemma salidas_de_cons p r df :
  salidas_de p (r :: df)
  = (if es_salida r && de_producto p r then cantidad r else 0) + salidas_de p df.
Proof.
  unfold salidas_de. simpl. destruct (es_salida r && de_producto p r); reflexivity.
Qed.

(** ** What the loop leaves in the accumulators *)

Ltac loop_induction :=
  refine (for_each_loop_ind _ _ _);
  [ intros acc
  | intros r df acc acc1 acc' Hbody IH;
    apply loop_body_inv in Hbody;
    destruct Hbody as [(He & Hs & ->)|[(He & Hs & d & Hd & ->)|(He & Hs & ->)]] ].

Lemma loop_stock_actual :
  forall df acc acc', for_each loop_body df acc = Ok acc' ->
  forall p, getd Z.eqb (stock_actual acc') p 0
            = getd Z.eqb (stock_actual acc) p 0 + entradas_de p df - salidas_de p df.
Proof.
  loop_induction; intros p.
  - unfold entradas_de, salidas_de; simpl; lia.
  - rewrite IH, entradas_de_cons, salidas_de_cons, He, Hs. simpl.
    rewrite getd_add_int. unfold de_producto. destruct (producto_id r =? p); lia.
  - rewrite IH, entradas_de_cons, salidas_de_cons, He, Hs. simpl.
    rewrite getd_add_int. unfold de_producto. destruct (producto_id r =? p); lia.
  - rewrite IH, entradas_de_cons, salidas_de_cons, He, Hs. simpl. lia.
Qed.

Lemma loop_ventas_totales :
  forall df acc acc', for_each loop_body df acc = Ok acc' ->
  forall p, getd Z.eqb (ventas_totales acc') p 0
            = getd Z.eqb (ventas_totales acc) p 0 + salidas_de p df.
Proof.
  loop_induction; intros p.
  - unfold salidas_de; simpl; lia.
  - rewrite IH, salidas_de_cons, Hs. simpl. lia.
  - rewrite IH, salidas_de_cons, Hs. simpl.
    rewrite getd_add_int. unfold de_producto. destruct (producto_id r =? p); lia.
  - rewrite IH, salidas_de_cons, Hs. simpl. lia.
Qed.

Lemma loop_sum_ventas :
  forall df acc acc', for_each loop_body df acc = Ok acc' ->
  sum_Z (values (ventas_totales acc'))
  = sum_Z (values (ventas_totales acc)) + total_salidas df.
Proof.
  loop_induction.
  - unfold total_salidas; simpl; lia.
  - rewrite IH, total_salidas_cons, Hs. simpl. lia.
  - rewrite IH, total_salidas_cons, Hs. simpl. rewrite sum_values_add_int. lia.
  - rewrite IH, total_salidas_cons, Hs. lia.
Qed.

Lemma suma_meses_add_mes vpm k mes c p :
  In mes meses_en ->
  suma_meses (getd Z.eqb (add_mes vpm k mes c) p [])
  = suma_meses (getd Z.eqb vpm p []) + (if k =? p then c else 0).
Proof.
  intros Hin. unfold add_mes. destruct (Z.eqb_spec k p) as [->|Hne].
  - rewrite (getd_set_same Z.eqb Z.eqb_spec). now apply suma_meses_add_int.
  - rewrite (getd_set_other Z.eqb Z.eqb_spec) by congruence. lia.
Qed.

Lemma loop_ventas_por_mes :
  forall df acc acc', for_each loop_body df acc = Ok acc' ->
  forall p, suma_meses (getd Z.eqb (ventas_por_mes acc') p [])
            = suma_meses (getd Z.eqb (ventas_por_mes acc) p []) + salidas_de p df.
Proof.
  loop_induction; intros p.
  - unfold salidas_de; simpl; lia.
  - rewrite IH, salidas_de_cons, Hs. simpl. lia.
  - rewrite IH, salidas_de_cons, Hs. simpl.
    rewrite suma_meses_add_mes by apply mes_en_meses.
    unfold de_producto. destruct (producto_id r =? p); lia.
  - rewrite IH, salidas_de_cons, Hs. simpl. lia.
Qed.

Lemma con_salida_cons p r df :
  con_salida p (r :: df) <->
  (es_salida r = true /\ producto_id r = p) \/ con_salida p df.
Proof.
  unfold con_salida. split.
  - intros (r' & [<-|Hin] & Hs & Hp); [now left|right; now exists r'].
  - intros [[Hs Hp]|(r' & Hin & Hs & Hp)].
    + exists r. simpl. auto.
    + exists r'. simpl. auto.
Qed.

Lemma con_movimiento_cons p r df :
  con_movimiento p (r :: df) <->
  ((es_entrada r = true \/ es_salida r = true) /\ producto_id r = p)
  \/ con_movimiento p df.
Proof.
  unfold con_movimiento. split.
  - intros (r' & [<-|Hin] & Hs & Hp); [now left|right; now exists r'].
  - intros [[Hs Hp]|(r' & Hin & Hs & Hp)].
    + exists r. simpl. auto.
    + exists r'. simpl. auto.
Qed.

Lemma in_keys_add_int (d : dict Z Z) k c p :
  In p (keys (add_int Z.eqb d k c)) <-> p = k \/ In p (keys d).
Proof. unfold add_int. apply in_keys_set, Z.eqb_spec. Qed.

Lemma in_keys_add_mes vpm k mes c p :
  In p (keys (add_mes vpm k mes c)) <-> p = k \/ In p (keys vpm).
Proof. unfold add_mes. apply in_keys_set, Z.eqb_spec. Qed.

Lemma loop_keys_ventas_totales :
  forall df acc acc', for_each loop_body df acc = Ok acc' ->
  forall p, In p (keys (ventas_totales acc'))
            <-> In p (keys (ventas_totales acc)) \/ con_salida p df.
Proof.
  loop_induction; intros p.
  - unfold con_salida; simpl. firstorder.
  - rewrite IH, con_salida_cons, Hs. simpl. intuition discriminate.
  - rewrite IH, con_salida_cons. simpl. rewrite in_keys_add_int. intuition.
  - rewrite IH, con_salida_cons, Hs. intuition discriminate.
Qed.

Lemma loop_keys_ventas_por_mes :
  forall df acc acc', for_each loop_body df acc = Ok acc' ->
  forall p, In p (keys (ventas_por_mes acc'))
            <-> In p (keys (ventas_por_mes acc)) \/ con_salida p df.
Proof.
  loop_induction; intros p.
  - unfold con_salida; simpl. firstorder.
  - rewrite IH, con_salida_cons, Hs. simpl. intuition discriminate.
  - rewrite IH, con_salida_cons. simpl. rewrite in_keys_add_mes. intuition.
  - rewrite IH, con_salida_cons, Hs. intuition discriminate.
Qed.

Lemma loop_keys_stock_actual :
  forall df acc acc', for_each loop_body df acc = Ok acc' ->
  forall p, In p (keys (stock_actual acc'))
            <-> In p (keys (stock_actual acc)) \/ con_movimiento p df.
Proof.
  loop_induction; intros p.
  - unfold con_movimiento; simpl. firstorder.
  - rewrite IH, con_movimiento_cons. simpl. rewrite in_keys_add_int. intuition.
  - rewrite IH, con_movimiento_cons. simpl. rewrite in_keys_add_int. intuition.
  - rewrite IH, con_movimiento_cons, He, Hs. intuition discriminate.
Qed.

Lemma loop_NoDup :
  forall df acc acc', for_each loop_body df acc = Ok acc' ->
  NoDup (keys (ventas_totales acc)) /\ NoDup (keys (ventas_por_mes acc))
  /\ NoDup (keys (stock_actual acc)) ->
  NoDup (keys (ventas_totales acc')) /\ NoDup (keys (ventas_por_mes acc'))
  /\ NoDup (keys (stock_actual acc')).
Proof.
  loop_induction; intros (Hv & Hm & Hk).
  - auto.
  - apply IH. simpl. repeat split; auto.
    now apply NoDup_keys_set; [apply Z.eqb_spec|].
  - apply IH. simpl. repeat split; apply NoDup_keys_set; auto using Z.eqb_spec.
  - apply IH. auto.
Qed.

(** ** What reaches the collections *)

Lemma insert_each_ok {K V A : Type} (bson : A -> bool) (doc : K * V -> A)
  (items : dict K V) :
  forallb bson (map doc items) = true ->
  forall coll, insert_each bson doc items coll = (coll ++ map doc items, Ok tt).
Proof.
  induction items as [|kv items IH]; cbn [map forallb insert_each]; intros H coll.
  - now rewrite app_nil_r.
  - apply andb_true_iff in H. destruct H as [Hkv H].
    unfold insert_one. rewrite Hkv, (IH H), <- app_assoc. reflexivity.
Qed.

Lemma insert_each_raise {K V A : Type} (bson : A -> bool) (doc : K * V -> A)
  (items : dict K V) :
  forallb bson (map doc items) = false ->
  forall coll, exists written,
    insert_each bson doc items coll = (coll ++ written, Raise OverflowError)
    /\ prefijo written (map doc items) /\ written <> map doc items.
Proof.
  induction items as [|kv items IH]; cbn [map forallb insert_each]; intros H coll.
  - discriminate.
  - unfold insert_one. destruct (bson (doc kv)) eqn:Hkv; cbn [andb] in H.
    + destruct (IH H (coll ++ [doc kv])) as (written & -> & [rest Hrest] & Hne).
      exists (doc kv :: written). rewrite <- app_assoc. split; [reflexivity|].
      split; [exists rest; cbn; now rewrite Hrest|].
      intros E. inversion E. contradiction.
    + exists []. rewrite app_nil_r. split; [reflexivity|].
      split; [now exists (doc kv :: map doc items)|discriminate].
Qed.

Lemma commit_ok db acc :
  cabe acc = true -> commit db acc = (todo_escrito acc, Ok tt).
Proof.
  unfold cabe, todo_escrito. cbn [ventas_aggregadas alertas_stock estacionalidad].
  rewrite !andb_true_iff. intros [[Hv Ha] He]. unfold commit, delete_many.
  rewrite (insert_each_ok _ _ _ Hv), (insert_each_ok _ _ _ Ha),
    (insert_each_ok _ _ _ He). reflexivity.
Qed.

Lemma commit_raise db acc :
  cabe acc = false ->
  exists db', commit db acc = (db', Raise OverflowError)
    /\ prefijo (ventas_aggregadas db') (ventas_aggregadas (todo_escrito acc))
    /\ prefijo (alertas_stock db') (alertas_stock (todo_escrito acc))
    /\ prefijo (estacionalidad db') (estacionalidad (todo_escrito acc))
    /\ db' <> todo_escrito acc.
Proof.
  unfold cabe, todo_escrito. cbn [ventas_aggregadas alertas_stock estacionalidad].
  intros H. unfold commit, delete_many.
  destruct (forallb venta_bson (map venta_doc (ventas_totales acc))) eqn:Hv.
  - rewrite (insert_each_ok _ _ _ Hv). cbn [app].
    destruct (forallb alerta_bson (map alerta_doc (stock_actual acc))) eqn:Ha.
    + rewrite (insert_each_ok _ _ _ Ha). cbn [app]. cbn [andb] in H.
      destruct (insert_each_raise _ _ _ H []) as (w & -> & Hpre & Hne).
      cbn [app]. eexists. split; [reflexivity|].
      cbn [ventas_aggregadas alertas_stock estacionalidad].
      repeat split; try (now exists []; rewrite app_nil_r); [exact Hpre|].
      intros E. inversion E. contradiction.
    + destruct (insert_each_raise _ _ _ Ha []) as (w & -> & Hpre & Hne).
      cbn [app]. eexists. split; [reflexivity|].
      cbn [ventas_aggregadas alertas_stock estacionalidad].
      repeat split; try (now exists []; rewrite app_nil_r);
        [exact Hpre|now eexists|].
      intros E. inversion E. contradiction.
  - destruct (insert_each_raise _ _ _ Hv []) as (w & -> & Hpre & Hne).
    cbn [app]. eexists. split; [reflexivity|].
    cbn [ventas_aggregadas alertas_stock estacionalidad].
    repeat split; [exact Hpre|now eexists|now eexists|].
    intros E. inversion E. contradiction.
Qed.

Lemma commit_any db1 db2 acc : commit db1 acc = commit db2 acc.
Proof. reflexivity. Qed.

Lemma sync_loop_ok db df acc :
  for_each loop_body df acc0 = Ok acc ->
  sync_local_csv db df
  = if cabe acc then (todo_escrito acc, Response200 mensaje_ok)
    else (fst (commit db acc), Response500 OverflowError).
Proof.
  intros Hloop. unfold sync_local_csv. rewrite Hloop.
  destruct (cabe acc) eqn:Hc.
  - now rewrite (commit_ok db acc Hc).
  - destruct (commit_raise db acc Hc) as (db' & -> & _). reflexivity.
Qed.

Lemma sync_200_cabe db df db' msg :
  sync_local_csv db df = (db', Response200 msg) ->
  exists acc, for_each loop_body df acc0 = Ok acc /\ cabe acc = true
              /\ db' = todo_escrito acc.
Proof.
  destruct (for_each loop_body df acc0) as [acc|e] eqn:Hloop.
  - rewrite (sync_loop_ok db df acc Hloop). destruct (cabe acc) eqn:Hc; intros H.
    + inversion H; subst. exists acc. repeat split. exact Hc.
    + discriminate.
  - unfold sync_local_csv. rewrite Hloop. discriminate.
Qed.

Lemma sync_200 db df db' msg :
  sync_local_csv db df = (db', Response200 msg) ->
  exists acc, for_each loop_body df acc0 = Ok acc /\ db' = todo_escrito acc.
Proof.
  intros H. destruct (sync_200_cabe _ _ _ _ H) as (acc & Hloop & _ & ->).
  now exists acc.
Qed.

Lemma NoDup_acc0 :
  NoDup (keys (ventas_totales acc0)) /\ NoDup (keys (ventas_por_mes acc0))
  /\ NoDup (keys (stock_actual acc0)).
Proof. simpl. repeat split; constructor. Qed.

Lemma filter_key_one {A : Type} (f : A -> Z) (l : list A) (p : Z) :
  NoDup (map f l) -> In p (map f l) ->
  List.length (filter (fun x => f x =? p) l) = 1%nat.
Proof.
  induction l as [|x l IH]; simpl; intros Hnd Hin; [contradiction|].
  inversion Hnd as [|? ? Hnot Hnd']; subst.
  destruct (Z.eqb_spec (f x) p) as [Heq|Hne].
  - simpl. f_equal. subst p.
    assert (Hnone : forall l', ~ In (f x) (map f l') ->
                               filter (fun y => f y =? f x) l' = []).
    { induction l' as [|y l' IH']; simpl; intros Hn; [reflexivity|].
      destruct (Z.eqb_spec (f y) (f x)) as [E|E].
      - exfalso. apply Hn. now left.
      - apply IH'. intros H. apply Hn. now right. }
    now rewrite Hnone.
  - destruct Hin as [Heq|Hin]; [contradiction|]. now apply IH.
Qed.

Lemma map_id_venta_doc (d : dict Z Z) :
  map venta_producto_id (map venta_doc d) = keys d.
Proof. unfold keys. rewrite map_map. reflexivity. Qed.

Lemma map_id_alerta_doc (d : dict Z Z) :
  map alerta_producto_id (map alerta_doc d) = keys d.
Proof. unfold keys. rewrite map_map. reflexivity. Qed.

Lemma map_id_est_doc (d : dict Z (dict string Z)) :
  map est_producto_id (map est_doc d) = keys d.
Proof. unfold keys. rewrite map_map. reflexivity. Qed.

Lemma map_total_venta_doc (d : dict Z Z) :
  map venta_total_ventas (map venta_doc d) = values d.
Proof. unfold values. rewrite map_map. reflexivity. Qed.

(** ** The scenario of three rows *)

(** C1. On the batch of one [entrada] of 100 on 2024-01-01 and two [salida]
    of 30 on 2024-01-15 and 20 on 2024-02-01 for product 1, whatever the
    collections held before, the run answers 200 and leaves: one sales total
    of 50 for product 1; one stock alert with stock 50 and state NORMAL; one
    seasonality document whose [ventas_por_mes] gives 30 for "january", 20
    for "february" and 0 for each of the other ten lowercase English month
    names, its keys being among those twelve names. *)
Theorem sync_escenario :
  forall db,
    sync_local_csv db escenario =
      ({| ventas_aggregadas :=
            [ {| venta_producto_id := 1; venta_nombre_producto := "Producto 1";
                 venta_total_ventas := 50 |} ];
          alertas_stock :=
            [ {| alerta_producto_id := 1; alerta_nombre_producto := "Producto 1";
                 alerta_stock_actual := 50; alerta_estado := NORMAL |} ];
          estacionalidad :=
            [ {| est_producto_id := 1; est_nombre_producto := "Producto 1";
                 est_ventas_por_mes := [("january", 30); ("february", 20)] |} ] |},
       Response200 mensaje_ok)
    /\ (forall e, In e (estacionalidad (fst (sync_local_csv db escenario))) ->
          map (fun mes => getd String.eqb (est_ventas_por_mes e) mes 0) meses_en
          = [30; 20; 0; 0; 0; 0; 0; 0; 0; 0; 0; 0]
          /\ incl (keys (est_ventas_por_mes e)) meses_en).
Proof.
  intros db.
  assert (E : sync_local_csv db escenario = sync_local_csv db_vacia escenario).
  { unfold sync_local_csv.
    destruct (for_each loop_body escenario acc0) as [acc|e] eqn:E.
    - now rewrite (commit_any db db_vacia).
    - vm_compute in E. discriminate. }
  rewrite E. split; [reflexivity|].
  intros e [<-|[]]. split; [reflexivity|].
  intros m [<-|[<-|[]]]; vm_compute; tauto.
Qed.

(** ** Alert levels *)

(** C5. The state stored with every stock alert is [estado_de] of the stock
    stored in the same document, and [estado_de] is the threshold function:
    below 10 it is CRÍTICO, from 10 up to 49 it is BAJO, from 50 on it is
    NORMAL; in particular 9 gives CRÍTICO, 10 and 49 give BAJO, 50 gives
    NORMAL. *)
Theorem estado_umbral :
  (forall db df db' msg a,
      sync_local_csv db df = (db', Response200 msg) ->
      In a (alertas_stock db') ->
      alerta_estado a = estado_de (alerta_stock_actual a))
  /\ (forall s, s < 10 -> estado_de s = CRITICO)
  /\ (forall s, 10 <= s < 50 -> estado_de s = BAJO)
  /\ (forall s, 50 <= s -> estado_de s = NORMAL)
  /\ estado_de 9 = CRITICO /\ estado_de 10 = BAJO
  /\ estado_de 49 = BAJO /\ estado_de 50 = NORMAL.
Proof.
  split.
  - intros db df db' msg a Hsync Hin.
    apply sync_200 in Hsync. destruct Hsync as (acc & _ & ->).
    unfold todo_escrito in Hin. cbn [alertas_stock] in Hin.
    apply in_map_iff in Hin. destruct Hin as ([k v] & <- & _). reflexivity.
  - unfold estado_de. repeat split; try reflexivity; intros s Hs.
    + destruct (Z.ltb_spec s 10); [reflexivity|lia].
    + destruct (Z.ltb_spec s 10); [lia|].
      destruct (Z.ltb_spec s 50); [reflexivity|lia].
    + destruct (Z.ltb_spec s 10); [lia|].
      destruct (Z.ltb_spec s 50); [lia|reflexivity].
Qed.

Lemma sync_ejemplo :
  sync_local_csv db_vacia ejemplo = (db_ejemplo, Response200 mensaje_ok).
Proof. reflexivity. Qed.

Lemma estado_umbral_witness :
  Forall (fun a => alerta_estado a = estado_de (alerta_stock_actual a))
         (alertas_stock db_ejemplo)
  /\ estado_de (-5) = CRITICO /\ estado_de 20 = BAJO /\ estado_de 74 = NORMAL.
Proof.
  destruct estado_umbral as (Hdoc & Hcrit & Hbajo & Hnormal & _).
  split; [|split; [|split]].
  - apply Forall_forall. intros a Ha.
    exact (Hdoc db_vacia ejemplo db_ejemplo mensaje_ok a sync_ejemplo Ha).
  - apply Hcrit. lia.
  - apply Hbajo. lia.
  - apply Hnormal. lia.
Defined.

(** ** Totals *)

(** C7. When the run answers 200, the [total_ventas] of the documents of
    [ventas_aggregadas] add up to the quantities of the [salida] rows of the
    batch. *)
Theorem sum_total_ventas :
  forall db df db' msg,
    sync_local_csv db df = (db', Response200 msg) ->
    sum_Z (map venta_total_ventas (ventas_aggregadas db')) = total_salidas df.
Proof.
  intros db df db' msg Hsync.
  apply sync_200 in Hsync. destruct Hsync as (acc & Hloop & ->).
  unfold todo_escrito. cbn [ventas_aggregadas].
  rewrite map_total_venta_doc, (loop_sum_ventas _ _ _ Hloop). reflexivity.
Qed.

Lemma sum_total_ventas_witness :
  sum_Z (map venta_total_ventas (ventas_aggregadas db_ejemplo)) = total_salidas ejemplo
  /\ total_salidas ejemplo = 35.
Proof.
  split; [|reflexivity].
  exact (sum_total_ventas db_vacia ejemplo db_ejemplo mensaje_ok sync_ejemplo).
Defined.

Lemma alertas_balance df acc :
  for_each loop_body df acc0 = Ok acc ->
  forall a, In a (alertas_stock (todo_escrito acc)) ->
    alerta_stock_actual a
    = entradas_de (alerta_producto_id a) df - salidas_de (alerta_producto_id a) df.
Proof.
  intros Hloop a Hin. unfold todo_escrito in Hin. cbn [alertas_stock] in Hin.
  destruct (loop_NoDup _ _ _ Hloop NoDup_acc0) as (_ & _ & Hnd).
  apply in_map_iff in Hin. destruct Hin as ([k v] & <- & Hin).
  cbn [alerta_doc alerta_stock_actual alerta_producto_id fst snd].
  pose proof (loop_stock_actual _ _ _ Hloop k) as Hk.
  unfold getd in Hk at 1.
  rewrite (in_NoDup_get Z.eqb Z.eqb_spec _ _ _ Hnd Hin) in Hk.
  rewrite Hk. reflexivity.
Qed.

(** C8. When the run answers 200, every product with an [entrada] or a
    [salida] row has a stock alert, and the [stock_actual] of every stock
    alert is the sum of the [entrada] quantities of its product minus the sum
    of its [salida] quantities, an integer of either sign, stored as it is. *)
Theorem stock_actual_balance :
  forall db df db' msg,
    sync_local_csv db df = (db', Response200 msg) ->
    (forall p, con_movimiento p df ->
               exists a, In a (alertas_stock db') /\ alerta_producto_id a = p)
    /\ (forall a, In a (alertas_stock db') ->
          alerta_stock_actual a
          = entradas_de (alerta_producto_id a) df - salidas_de (alerta_producto_id a) df).
Proof.
  intros db df db' msg Hsync.
  apply sync_200 in Hsync. destruct Hsync as (acc & Hloop & ->).
  split; [|now apply alertas_balance].
  intros p Hp. unfold todo_escrito. cbn [alertas_stock].
  assert (Hin : In p (keys (stock_actual acc))).
  { apply (loop_keys_stock_actual _ _ _ Hloop). now right. }
  rewrite <- map_id_alerta_doc in Hin. apply in_map_iff in Hin.
  destruct Hin as (a & Ha & Hin). now exists a.
Qed.

Lemma stock_actual_balance_witness :
  exists a, In a (alertas_stock db_ejemplo) /\ alerta_producto_id a = 2
            /\ alerta_stock_actual a = -5.
Proof.
  destruct (stock_actual_balance db_vacia ejemplo db_ejemplo mensaje_ok sync_ejemplo)
    as [Hhas Hbal].
  destruct (Hhas 2) as (a & Hin & Hid).
  - exists (fila 2 "salida" 5 "2024-03-10 08:30:00").
    split; [right; left; reflexivity|split; [right; reflexivity|reflexivity]].
  - exists a. split; [exact Hin|split; [exact Hid|]].
    rewrite (Hbal a Hin), Hid. reflexivity.
Defined.

(** ** One document per product *)

(** C6. When the run answers 200, a product with at least one [salida] row
    has exactly one document in [ventas_aggregadas] and exactly one in
    [estacionalidad], and a product with at least one [entrada] or [salida]
    row has exactly one document in [alertas_stock]. *)
Theorem one_document_per_product :
  forall db df db' msg,
    sync_local_csv db df = (db', Response200 msg) ->
    forall p,
      (con_salida p df ->
       List.length (ventas_de p db') = 1%nat
       /\ List.length (estacionalidad_de p db') = 1%nat)
      /\ (con_movimiento p df -> List.length (alertas_de p db') = 1%nat).
Proof.
  intros db df db' msg Hsync p.
  apply sync_200 in Hsync. destruct Hsync as (acc & Hloop & ->).
  unfold ventas_de, estacionalidad_de, alertas_de.
  unfold todo_escrito. cbn [ventas_aggregadas alertas_stock estacionalidad].
  destruct (loop_NoDup _ _ _ Hloop NoDup_acc0) as (Hv & Hm & Hs).
  split; [intros Hp; split|intros Hp].
  - apply (filter_key_one venta_producto_id); rewrite map_id_venta_doc; [exact Hv|].
    apply (loop_keys_ventas_totales _ _ _ Hloop). now right.
  - apply (filter_key_one est_producto_id); rewrite map_id_est_doc; [exact Hm|].
    apply (loop_keys_ventas_por_mes _ _ _ Hloop). now right.
  - apply (filter_key_one alerta_producto_id); rewrite map_id_alerta_doc; [exact Hs|].
    apply (loop_keys_stock_actual _ _ _ Hloop). now right.
Qed.

Lemma one_document_per_product_witness :
  List.length (ventas_de 1 db_ejemplo) = 1%nat
  /\ List.length (estacionalidad_de 1 db_ejemplo) = 1%nat
  /\ List.length (alertas_de 1 db_ejemplo) = 1%nat.
Proof.
  destruct (one_document_per_product db_vacia ejemplo db_ejemplo mensaje_ok
              sync_ejemplo 1) as [Hsal Hmov].
  assert (Hs : con_salida 1 ejemplo).
  { eexists. split; [right; right; left; reflexivity|split; reflexivity]. }
  assert (Hm : con_movimiento 1 ejemplo).
  { eexists. split; [left; reflexivity|split; [left; reflexivity|reflexivity]]. }
  destruct (Hsal Hs) as [Hv He]. split; [exact Hv|split; [exact He|exact (Hmov Hm)]].
Defined.

(** ** Seasonality *)

(** C9. When the run answers 200, every product with at least one [salida]
    row has a sales total and a seasonality document, and for any sales total
    and seasonality document of one product, the values of [ventas_por_mes]
    under the twelve month keys, a missing key counting 0, add up to
    [total_ventas]. *)
Theorem suma_meses_total_ventas :
  forall db df db' msg,
    sync_local_csv db df = (db', Response200 msg) ->
    (forall p, con_salida p df ->
       exists v e, In v (ventas_aggregadas db') /\ In e (estacionalidad db')
                   /\ venta_producto_id v = p /\ est_producto_id e = p)
    /\ (forall v e, In v (ventas_aggregadas db') -> In e (estacionalidad db') ->
          venta_producto_id v = est_producto_id e ->
          suma_meses (est_ventas_por_mes e) = venta_total_ventas v).
Proof.
  intros db df db' msg Hsync.
  apply sync_200 in Hsync. destruct Hsync as (acc & Hloop & ->).
  unfold todo_escrito. cbn [ventas_aggregadas estacionalidad].
  destruct (loop_NoDup _ _ _ Hloop NoDup_acc0) as (Hv & Hm & _).
  split.
  - intros p Hp.
    assert (Hin1 : In p (keys (ventas_totales acc))).
    { apply (loop_keys_ventas_totales _ _ _ Hloop). now right. }
    assert (Hin2 : In p (keys (ventas_por_mes acc))).
    { apply (loop_keys_ventas_por_mes _ _ _ Hloop). now right. }
    rewrite <- map_id_venta_doc in Hin1. rewrite <- map_id_est_doc in Hin2.
    apply in_map_iff in Hin1. apply in_map_iff in Hin2.
    destruct Hin1 as (v & Hidv & Hinv). destruct Hin2 as (e & Hide & Hine).
    exists v, e. auto.
  - intros v e Hinv Hine Hid.
    apply in_map_iff in Hinv. apply in_map_iff in Hine.
    destruct Hinv as ([k t] & <- & Hinv). destruct Hine as ([k' inner] & <- & Hine).
    cbn [venta_doc est_doc venta_producto_id est_producto_id venta_total_ventas
         est_ventas_por_mes fst snd] in *. subst k'.
    pose proof (loop_ventas_totales _ _ _ Hloop k) as Ht.
    pose proof (loop_ventas_por_mes _ _ _ Hloop k) as Hi.
    unfold getd in Ht at 1. unfold getd in Hi at 1.
    rewrite (in_NoDup_get Z.eqb Z.eqb_spec _ _ _ Hv Hinv) in Ht.
    rewrite (in_NoDup_get Z.eqb Z.eqb_spec _ _ _ Hm Hine) in Hi.
    rewrite Ht, Hi. reflexivity.
Qed.

Lemma suma_meses_total_ventas_witness :
  exists v e, In v (ventas_aggregadas db_ejemplo) /\ In e (estacionalidad db_ejemplo)
              /\ venta_producto_id v = 1 /\ est_producto_id e = 1
              /\ suma_meses (est_ventas_por_mes e) = venta_total_ventas v.
Proof.
  destruct (suma_meses_total_ventas db_vacia ejemplo db_ejemplo mensaje_ok sync_ejemplo)
    as [Hhas Hsum].
  destruct (Hhas 1) as (v & e & Hv & He & Hidv & Hide).
  - eexists. split; [right; right; left; reflexivity|split; reflexivity].
  - exists v, e. repeat split; try assumption.
    apply Hsum; [assumption|assumption|congruence].
Defined.

(** ** Dates that are not dates *)

Lemma es_salida_tipo r : tipo r = "salida" -> es_salida r = true.
Proof. unfold es_salida. intros ->. reflexivity. Qed.

Lemma es_entrada_tipo r : tipo r = "entrada" -> es_entrada r = true.
Proof. unfold es_entrada. intros ->. reflexivity. Qed.

Lemma for_each_raise r df :
  In r df -> (forall acc, exists e, loop_body acc r = Raise e) ->
  forall acc, exists e, for_each loop_body df acc = Raise e.
Proof.
  intros Hin Hr. induction df as [|x df IH]; [contradiction|].
  intros acc. simpl. destruct (loop_body acc x) as [acc1|e] eqn:E; simpl.
  - destruct Hin as [->|Hin].
    + destruct (Hr acc) as [e He]. congruence.
    + now apply IH.
  - now exists e.
Qed.


(** C4, as the code has it. If some [salida] row of the batch carries as
    [fecha] a text that [strptime] with the format "%Y-%m-%d %H:%M:%S"
    rejects, the run answers 500 and the database it returns is the one it
    was given: none of the three collections is emptied or written. *)
Theorem fecha_mal_formada_sin_cambios :
  forall db df r s,
    In r df -> tipo r = "salida" -> fecha r = FechaStr s -> strptime s = None ->
    exists e, sync_local_csv db df = (db, Response500 e).
Proof.
  intros db df r s Hin Htipo Hfecha Hparse.
  destruct (for_each_raise r df Hin) with (acc := acc0) as [e He].
  - intros acc. rewrite (loop_body_salida _ _ (es_salida_tipo _ Htipo)).
    unfold fecha_datetime. rewrite Hfecha, Hparse. now exists ValueError.
  - exists e. unfold sync_local_csv. now rewrite He.
Qed.

Lemma fecha_mal_formada_sin_cambios_witness :
  strptime "2024/01/01" = None
  /\ exists e, sync_local_csv db_ejemplo lote_fecha_mala = (db_ejemplo, Response500 e).
Proof.
  split; [reflexivity|].
  apply (fecha_mal_formada_sin_cambios db_ejemplo lote_fecha_mala
           (fila 1 "salida" 30 "2024/01/01") "2024/01/01");
    [right; left; reflexivity|reflexivity|reflexivity|reflexivity].
Defined.

(** C4, as stated, fails: "2024-1-5 1:2:3" is not written as
    YYYY-MM-DD HH:MM:SS, yet [strptime] reads it as a date, the run answers
    200 and the three collections are replaced. *)
Lemma fecha_sin_relleno_se_acepta :
  patron_exacto "2024-1-5 1:2:3" = false
  /\ (exists r, In r lote_sin_relleno /\ tipo r = "salida"
                /\ fecha r = FechaStr "2024-1-5 1:2:3")
  /\ sync_local_csv db_ejemplo lote_sin_relleno
     = ({| ventas_aggregadas :=
             [ {| venta_producto_id := 1; venta_nombre_producto := "Producto 1";
                  venta_total_ventas := 30 |} ];
           alertas_stock :=
             [ {| alerta_producto_id := 1; alerta_nombre_producto := "Producto 1";
                  alerta_stock_actual := -30; alerta_estado := CRITICO |} ];
           estacionalidad :=
             [ {| est_producto_id := 1; est_nombre_producto := "Producto 1";
                  est_ventas_por_mes := [("january", 30)] |} ] |},
        Response200 mensaje_ok)
  /\ fst (sync_local_csv db_ejemplo lote_sin_relleno) <> db_ejemplo.
Proof.
  split; [reflexivity|split; [|split; [reflexivity|]]].
  - eexists. split; [left; reflexivity|split; reflexivity].
  - intros E. apply (f_equal (fun d => List.length (alertas_stock d))) in E.
    vm_compute in E. discriminate E.
Qed.

(** ** Rows of another type *)

Lemma for_each_tipo_conocido df :
  forall acc, for_each loop_body df acc
              = for_each loop_body (filter tipo_conocido df) acc.
Proof.
  induction df as [|r df IH]; intros acc; [reflexivity|].
  cbn [filter]. unfold tipo_conocido at 1.
  destruct (es_entrada r) eqn:He; [|destruct (es_salida r) eqn:Hs]; cbn [orb].
  - cbn [for_each]. destruct (loop_body acc r); simpl; [apply IH|reflexivity].
  - cbn [for_each]. destruct (loop_body acc r); simpl; [apply IH|reflexivity].
  - cbn [for_each]. rewrite (loop_body_otro _ _ He Hs). simpl. apply IH.
Qed.

(** C3, as the code has it. A row whose [tipo] is neither "entrada" nor
    "salida" is passed over: the run gives the response and the collections
    it gives on the batch without such rows, and no error comes from them. *)
Theorem tipo_desconocido_se_omite :
  forall db df,
    sync_local_csv db df = sync_local_csv db (filter tipo_conocido df).
Proof.
  intros db df. unfold sync_local_csv. now rewrite for_each_tipo_conocido.
Qed.

(** C3, as stated, fails: a batch whose only row has the type "ajuste" is
    answered with 200, and the three collections are replaced by empty ones
    instead of being left alone. *)
Lemma tipo_desconocido_no_aborta :
  (exists r, In r lote_ajuste /\ tipo r <> "entrada" /\ tipo r <> "salida")
  /\ sync_local_csv db_ejemplo lote_ajuste = (db_vacia, Response200 mensaje_ok)
  /\ ~ (exists e, snd (sync_local_csv db_ejemplo lote_ajuste) = Response500 e).
Proof.
  split; [|split].
  - eexists. split; [left; reflexivity|]. split; discriminate.
  - reflexivity.
  - intros [e He]. discriminate He.
Qed.

(** ** Names *)

Lemma for_each_sin_nombre df :
  forall acc, for_each loop_body (map sin_nombre df) acc = for_each loop_body df acc.
Proof.
  induction df as [|r df IH]; intros acc; [reflexivity|].
  cbn [map for_each]. change (loop_body acc (sin_nombre r)) with (loop_body acc r).
  destruct (loop_body acc r); simpl; [apply IH|reflexivity].
Qed.

(** C2, as the code has it. The name read from a row is the row's own
    [nombre_producto] when the column is there and "Producto <id>" when it is
    not, but that name goes nowhere: the run on the batch stripped of its
    names gives the same result, and when the run answers 200, every document
    of the three collections carries "Producto <id>" of its own identifier. *)
Theorem nombre_en_documentos :
  (forall r n, nombre_producto r = Some n -> row_nombre_producto r = n)
  /\ (forall r, nombre_producto r = None ->
               row_nombre_producto r = nombre_base (producto_id r))
  /\ (forall db df, sync_local_csv db (map sin_nombre df) = sync_local_csv db df)
  /\ (forall db df db' msg,
        sync_local_csv db df = (db', Response200 msg) ->
        (forall v, In v (ventas_aggregadas db') ->
           venta_nombre_producto v = nombre_base (venta_producto_id v))
        /\ (forall a, In a (alertas_stock db') ->
              alerta_nombre_producto a = nombre_base (alerta_producto_id a))
        /\ (forall e, In e (estacionalidad db') ->
              est_nombre_producto e = nombre_base (est_producto_id e))).
Proof.
  split; [|split; [|split]].
  - intros r n H. unfold row_nombre_producto. now rewrite H.
  - intros r H. unfold row_nombre_producto. now rewrite H.
  - intros db df. unfold sync_local_csv. now rewrite for_each_sin_nombre.
  - intros db df db' msg Hsync.
    apply sync_200 in Hsync. destruct Hsync as (acc & _ & ->).
    unfold todo_escrito. cbn [ventas_aggregadas alertas_stock estacionalidad].
    repeat split; intros x Hin; apply in_map_iff in Hin;
      destruct Hin as ([k v] & <- & _); reflexivity.
Qed.

Lemma nombre_en_documentos_witness :
  Forall (fun v => venta_nombre_producto v = nombre_base (venta_producto_id v))
         (ventas_aggregadas db_ejemplo)
  /\ Forall (fun a => alerta_nombre_producto a = nombre_base (alerta_producto_id a))
            (alertas_stock db_ejemplo)
  /\ Forall (fun e => est_nombre_producto e = nombre_base (est_producto_id e))
            (estacionalidad db_ejemplo).
Proof.
  destruct nombre_en_documentos as (_ & _ & _ & Hdocs).
  destruct (Hdocs db_vacia ejemplo db_ejemplo mensaje_ok sync_ejemplo)
    as (Hv & Ha & He).
  repeat split; apply Forall_forall; assumption.
Defined.

(** C2, as stated, fails: product 1 comes with the name "Martillo" on each
    of its rows, the run answers 200, and the documents written for product 1
    in the three collections are named "Producto 1". *)
Lemma nombre_de_entrada_no_llega :
  sync_local_csv db_vacia ejemplo = (db_ejemplo, Response200 mensaje_ok)
  /\ (forall r, In r ejemplo -> producto_id r = 1 ->
                nombre_producto r = Some "Martillo")
  /\ (exists v, In v (ventas_aggregadas db_ejemplo) /\ venta_producto_id v = 1
                /\ venta_nombre_producto v <> "Martillo")
  /\ (exists a, In a (alertas_stock db_ejemplo) /\ alerta_producto_id a = 1
                /\ alerta_nombre_producto a <> "Martillo")
  /\ (exists e, In e (estacionalidad db_ejemplo) /\ est_producto_id e = 1
                /\ est_nombre_producto e <> "Martillo").
Proof.
  split; [reflexivity|split; [|split; [|split]]].
  - intros r [<-|[<-|[<-|[<-|[<-|[]]]]]] H; try reflexivity; discriminate H.
  - eexists. split; [right; left; reflexivity|split; [reflexivity|discriminate]].
  - eexists. split; [left; reflexivity|split; [reflexivity|discriminate]].
  - eexists. split; [right; left; reflexivity|split; [reflexivity|discriminate]].
Qed.

(** ** More about the run: replacement, failure, order *)

Section DictMore.
Context {K V : Type}.
Variable eqb : K -> K -> bool.
Hypothesis eqb_spec : forall x y, reflect (x = y) (eqb x y).

Lemma get_Some_In (d : dict K V) k v : get eqb d k = Some v -> In (k, v) d.
Proof.
  induction d as [|[k' v'] d IH]; simpl; [discriminate|].
  destruct (eqb_spec k k') as [->|Hne].
  - intros H. inversion H. now left.
  - intros H. right. now apply IH.
Qed.

Lemma in_set_inv (d : dict K V) k v k0 v0 :
  In (k0, v0) (set eqb d k v) -> (k0 = k /\ v0 = v) \/ In (k0, v0) d.
Proof.
  induction d as [|[k' v'] d IH]; simpl.
  - intros [H|[]]. inversion H. now left.
  - destruct (eqb_spec k k') as [->|Hne]; simpl.
    + intros [H|H]; [inversion H; now left|right; now right].
    + intros [H|H]; [right; now left|].
      destruct (IH H) as [?|?]; [now left|right; now right].
Qed.
End DictMore.

Lemma getd_add_int_str (d : dict string Z) k c m :
  getd String.eqb (add_int String.eqb d k c) m 0
  = getd String.eqb d m 0 + (if String.eqb k m then c else 0).
Proof.
  unfold add_int. destruct (String.eqb_spec k m) as [->|Hne].
  - now rewrite (getd_set_same String.eqb String.eqb_spec).
  - rewrite (getd_set_other String.eqb String.eqb_spec) by congruence. lia.
Qed.

Lemma keys_set_agregar {V : Type} (d : dict Z V) k v :
  keys (set Z.eqb d k v) = agregar (keys d) k.
Proof.
  unfold agregar. induction d as [|[k' v'] d IH]; simpl; [reflexivity|].
  destruct (k =? k') eqn:E; simpl; [reflexivity|].
  rewrite IH. destruct (existsb (Z.eqb k) (keys d)); reflexivity.
Qed.

Lemma salidas_de_mes_cons p mes r df :
  salidas_de_mes p mes (r :: df)
  = (if es_salida r && de_producto p r && en_mes mes r then cantidad r else 0)
    + salidas_de_mes p mes df.
Proof.
  unfold salidas_de_mes. simpl.
  destruct (es_salida r && de_producto p r && en_mes mes r); reflexivity.
Qed.

Lemma loop_bucket :
  forall df acc acc', for_each loop_body df acc = Ok acc' ->
  forall p mes,
    getd String.eqb (getd Z.eqb (ventas_por_mes acc') p []) mes 0
    = getd String.eqb (getd Z.eqb (ventas_por_mes acc) p []) mes 0
      + salidas_de_mes p mes df.
Proof.
  loop_induction; intros p mes.
  - unfold salidas_de_mes; simpl; lia.
  - rewrite IH, salidas_de_mes_cons, Hs. simpl. lia.
  - rewrite IH, salidas_de_mes_cons, Hs. cbn [tras_salida ventas_por_mes andb].
    unfold en_mes, de_producto, add_mes. rewrite Hd.
    destruct (Z.eqb_spec (producto_id r) p) as [Heq|Hne]; cbn [andb].
    + rewrite <- Heq, (getd_set_same Z.eqb Z.eqb_spec), getd_add_int_str.
      destruct (String.eqb (lower (strftime_B d)) mes); lia.
    + rewrite (getd_set_other Z.eqb Z.eqb_spec) by congruence. lia.
  - rewrite IH, salidas_de_mes_cons, Hs. simpl. lia.
Qed.

Lemma meses_ok_add_mes vpm k mes c :
  In mes meses_en -> meses_ok vpm -> meses_ok (add_mes vpm k mes c).
Proof.
  intros Hmes Hok p inner Hin. unfold add_mes in Hin.
  apply (in_set_inv Z.eqb Z.eqb_spec) in Hin.
  destruct Hin as [[-> ->]|Hin]; [|now apply (Hok p)].
  assert (Hold : incl (keys (getd Z.eqb vpm k [])) meses_en
                 /\ NoDup (keys (getd Z.eqb vpm k []))).
  { unfold getd. destruct (get Z.eqb vpm k) as [inner|] eqn:E.
    - apply (Hok k). now apply (get_Some_In Z.eqb Z.eqb_spec).
    - split; [intros x []|constructor]. }
  destruct Hold as [Hincl Hnd]. unfold add_int. split.
  - intros m Hm. apply (in_keys_set String.eqb String.eqb_spec) in Hm.
    destruct Hm as [->|Hm]; [exact Hmes|now apply Hincl].
  - now apply NoDup_keys_set; [apply String.eqb_spec|].
Qed.

Lemma loop_meses_ok :
  forall df acc acc', for_each loop_body df acc = Ok acc' ->
  meses_ok (ventas_por_mes acc) -> meses_ok (ventas_por_mes acc').
Proof.
  loop_induction; intros Hok; [exact Hok|now apply IH| |now apply IH].
  apply IH. cbn [tras_salida ventas_por_mes].
  apply meses_ok_add_mes; [apply mes_en_meses|exact Hok].
Qed.

Lemma loop_orden :
  forall df acc acc', for_each loop_body df acc = Ok acc' ->
  keys (ventas_totales acc')
  = fold_left agregar (map producto_id (filter es_salida df)) (keys (ventas_totales acc))
  /\ keys (ventas_por_mes acc')
     = fold_left agregar (map producto_id (filter es_salida df))
                 (keys (ventas_por_mes acc))
  /\ keys (stock_actual acc')
     = fold_left agregar (map producto_id (filter tipo_conocido df))
                 (keys (stock_actual acc)).
Proof.
  loop_induction.
  - repeat split.
  - destruct IH as (Hv & Hm & Hk). cbn [filter]. unfold tipo_conocido at 1.
    rewrite Hs, He, Hv, Hm, Hk. cbn [orb map fold_left tras_entrada
      ventas_totales ventas_por_mes stock_actual].
    unfold add_int. now rewrite keys_set_agregar.
  - destruct IH as (Hv & Hm & Hk). cbn [filter]. unfold tipo_conocido at 1.
    rewrite Hs, He, Hv, Hm, Hk. cbn [orb map fold_left tras_salida
      ventas_totales ventas_por_mes stock_actual].
    unfold add_int, add_mes. now rewrite !keys_set_agregar.
  - destruct IH as (Hv & Hm & Hk). cbn [filter]. unfold tipo_conocido at 1.
    rewrite Hs, He, Hv, Hm, Hk. repeat split.
Qed.

Lemma for_each_fila_mala df :
  forall acc,
    match find fila_mala df with
    | Some r => for_each loop_body df acc = Raise (excepcion_de (fecha r))
    | None => exists acc', for_each loop_body df acc = Ok acc'
    end.
Proof.
  induction df as [|r df IH]; intros acc; cbn [find for_each].
  - now exists acc.
  - unfold fila_mala at 1. destruct (es_salida r) eqn:Hs; cbn [andb].
    + rewrite (loop_body_salida _ _ Hs). unfold fecha_ok, fecha_datetime, excepcion_de.
      destruct (fecha r) as [s|d|] eqn:Hf; cbn [negb bind].
      * destruct (strptime s); cbn [negb bind]; [apply IH|now rewrite Hf].
      * apply IH.
      * now rewrite Hf.
    + destruct (es_entrada r) eqn:He.
      * rewrite (loop_body_entrada _ _ He). cbn [bind]. apply IH.
      * rewrite (loop_body_otro _ _ He Hs). cbn [bind]. apply IH.
Qed.

Lemma sync_tres : sync_local_csv db_vacia lote_tres = (db_tres, Response200 mensaje_ok).
Proof. reflexivity. Qed.

(** X1. Replace-all: when the run answers 200, the collections it leaves do
    not depend on what the database held before, and running it again on its
    own result changes nothing. *)
Theorem sync_reemplaza_todo :
  forall db1 db2 df db' msg,
    sync_local_csv db1 df = (db', Response200 msg) ->
    sync_local_csv db2 df = (db', Response200 msg)
    /\ sync_local_csv db' df = (db', Response200 msg).
Proof.
  intros db1 db2 df db' msg H.
  destruct (for_each loop_body df acc0) as [acc|e] eqn:Hloop.
  - rewrite (sync_loop_ok db1 df acc Hloop) in H.
    rewrite !(sync_loop_ok _ df acc Hloop).
    destruct (cabe acc); [|discriminate]. inversion H; subst. split; reflexivity.
  - unfold sync_local_csv in H. rewrite Hloop in H. discriminate.
Qed.

Lemma sync_reemplaza_todo_witness :
  sync_local_csv db_vacia lote_tres = (db_tres, Response200 mensaje_ok)
  /\ sync_local_csv db_tres lote_tres = (db_tres, Response200 mensaje_ok).
Proof.
  apply (sync_reemplaza_todo db_ejemplo db_vacia lote_tres db_tres mensaje_ok).
  reflexivity.
Defined.

(** X2. What the run answers, case by case. If some [salida] row carries a
    [fecha] that is neither a date-time value nor a text the format accepts,
    it answers 500 with the exception of the first such row ([ValueError]
    for a text, [AttributeError] for an empty cell) and returns the database
    untouched. Otherwise the loop ends, and then: if every identifier, total,
    stock and month value to write holds in 64 bits, it answers 200 and the
    collections hold every document; if one does not, it answers 500 with
    [OverflowError], and each collection, emptied beforehand, holds only a
    beginning of its documents, with no rollback. *)
Theorem sync_resultado :
  forall db df,
    match find fila_mala df with
    | Some r => sync_local_csv db df = (db, Response500 (excepcion_de (fecha r)))
    | None =>
        exists acc,
          for_each loop_body df acc0 = Ok acc
          /\ if cabe acc
             then sync_local_csv db df = (todo_escrito acc, Response200 mensaje_ok)
             else exists db',
                 sync_local_csv db df = (db', Response500 OverflowError)
                 /\ prefijo (ventas_aggregadas db')
                            (ventas_aggregadas (todo_escrito acc))
                 /\ prefijo (alertas_stock db') (alertas_stock (todo_escrito acc))
                 /\ prefijo (estacionalidad db')
                            (estacionalidad (todo_escrito acc))
                 /\ db' <> todo_escrito acc
    end.
Proof.
  intros db df. pose proof (for_each_fila_mala df acc0) as H.
  destruct (find fila_mala df) as [r|].
  - unfold sync_local_csv. now rewrite H.
  - destruct H as [acc Hloop]. exists acc. split; [exact Hloop|].
    rewrite (sync_loop_ok db df acc Hloop). destruct (cabe acc) eqn:Hc.
    + reflexivity.
    + destruct (commit_raise db acc Hc) as (db' & E & Hpre).
      exists db'. rewrite E. split; [reflexivity|exact Hpre].
Qed.

Lemma sync_resultado_witness :
  sync_local_csv db_ejemplo lote_fecha_mala = (db_ejemplo, Response500 ValueError)
  /\ sync_local_csv db_ejemplo lote_tres = (db_tres, Response200 mensaje_ok)
  /\ sync_local_csv db_ejemplo lote_medio
     = ({| ventas_aggregadas :=
             [ {| venta_producto_id := 1; venta_nombre_producto := "Producto 1";
                  venta_total_ventas := 5 |} ];
           alertas_stock := [];
           estacionalidad := [] |},
        Response500 OverflowError).
Proof.
  split; [|split].
  - exact (sync_resultado db_ejemplo lote_fecha_mala).
  - destruct (sync_resultado db_ejemplo lote_tres) as (acc & Hloop & H).
    vm_compute in Hloop. inversion Hloop; subst. exact H.
  - reflexivity.
Defined.

(** X3. When the run answers 200, the [total_ventas] of every sales document
    is the sum of the quantities of the [salida] rows of its own product. *)
Theorem total_ventas_por_producto :
  forall db df db' msg,
    sync_local_csv db df = (db', Response200 msg) ->
    forall v, In v (ventas_aggregadas db') ->
      venta_total_ventas v = salidas_de (venta_producto_id v) df.
Proof.
  intros db df db' msg Hsync v Hin.
  apply sync_200 in Hsync. destruct Hsync as (acc & Hloop & ->).
  unfold todo_escrito in Hin. cbn [ventas_aggregadas] in Hin.
  destruct (loop_NoDup _ _ _ Hloop NoDup_acc0) as (Hnd & _ & _).
  apply in_map_iff in Hin. destruct Hin as ([k t] & <- & Hin).
  cbn [venta_doc venta_total_ventas venta_producto_id fst snd].
  pose proof (loop_ventas_totales _ _ _ Hloop k) as Hk.
  unfold getd in Hk at 1.
  rewrite (in_NoDup_get Z.eqb Z.eqb_spec _ _ _ Hnd Hin) in Hk.
  rewrite Hk. reflexivity.
Qed.

Lemma total_ventas_por_producto_witness :
  Forall (fun v => venta_total_ventas v = salidas_de (venta_producto_id v) lote_tres)
         (ventas_aggregadas db_tres)
  /\ salidas_de 1 lote_tres = 50 /\ salidas_de 3 lote_tres = 45.
Proof.
  split; [|split; reflexivity].
  apply Forall_forall.
  exact (total_ventas_por_producto db_vacia lote_tres db_tres mensaje_ok sync_tres).
Defined.

Lemma est_doc_inner df acc e :
  for_each loop_body df acc0 = Ok acc ->
  In e (estacionalidad (todo_escrito acc)) ->
  get Z.eqb (ventas_por_mes acc) (est_producto_id e) = Some (est_ventas_por_mes e)
  /\ incl (keys (est_ventas_por_mes e)) meses_en
  /\ NoDup (keys (est_ventas_por_mes e)).
Proof.
  intros Hloop Hin. unfold todo_escrito in Hin. cbn [estacionalidad] in Hin.
  destruct (loop_NoDup _ _ _ Hloop NoDup_acc0) as (_ & Hnd & _).
  apply in_map_iff in Hin. destruct Hin as ([k inner] & <- & Hin).
  cbn [est_doc est_producto_id est_ventas_por_mes fst snd].
  split; [now apply (in_NoDup_get Z.eqb Z.eqb_spec)|].
  apply (loop_meses_ok _ _ _ Hloop) with (p := k); [|exact Hin].
  intros p i [].
Qed.

(** X4. When the run answers 200, in every seasonality document the value
    read under any key is the sum of the quantities of the [salida] rows of
    that product dated in that month, whatever the year. *)
Theorem ventas_por_mes_por_bucket :
  forall db df db' msg,
    sync_local_csv db df = (db', Response200 msg) ->
    forall e mes, In e (estacionalidad db') ->
      getd String.eqb (est_ventas_por_mes e) mes 0
      = salidas_de_mes (est_producto_id e) mes df.
Proof.
  intros db df db' msg Hsync e mes Hin.
  apply sync_200 in Hsync. destruct Hsync as (acc & Hloop & ->).
  destruct (est_doc_inner _ _ _ Hloop Hin) as (Hget & _ & _).
  pose proof (loop_bucket _ _ _ Hloop (est_producto_id e) mes) as Hb.
  unfold getd in Hb at 2. rewrite Hget in Hb. rewrite Hb. reflexivity.
Qed.

Lemma ventas_por_mes_por_bucket_witness :
  (forall e, In e (estacionalidad db_tres) ->
     getd String.eqb (est_ventas_por_mes e) "january" 0
     = salidas_de_mes (est_producto_id e) "january" lote_tres)
  /\ salidas_de_mes 1 "january" lote_tres = 42.
Proof.
  split; [|reflexivity]. intros e He.
  exact (ventas_por_mes_por_bucket db_vacia lote_tres db_tres mensaje_ok sync_tres
           e "january" He).
Defined.

(** X5. When the run answers 200, a product has a sales document, and a
    seasonality document, exactly when the batch has a [salida] row for it,
    and it has a stock alert exactly when the batch has an [entrada] or a
    [salida] row for it: a product that was only received has an alert and
    nothing else. *)
Theorem documentos_solo_con_filas :
  forall db df db' msg,
    sync_local_csv db df = (db', Response200 msg) ->
    forall p,
      (In p (map venta_producto_id (ventas_aggregadas db')) <-> con_salida p df)
      /\ (In p (map est_producto_id (estacionalidad db')) <-> con_salida p df)
      /\ (In p (map alerta_producto_id (alertas_stock db')) <-> con_movimiento p df).
Proof.
  intros db df db' msg Hsync p.
  apply sync_200 in Hsync. destruct Hsync as (acc & Hloop & ->).
  unfold todo_escrito. cbn [ventas_aggregadas alertas_stock estacionalidad].
  rewrite map_id_venta_doc, map_id_est_doc, map_id_alerta_doc.
  rewrite (loop_keys_ventas_totales _ _ _ Hloop), (loop_keys_ventas_por_mes _ _ _ Hloop),
    (loop_keys_stock_actual _ _ _ Hloop).
  cbn [acc0 ventas_totales ventas_por_mes stock_actual keys map In]. tauto.
Qed.

Lemma documentos_solo_con_filas_witness :
  ~ In 2 (map venta_producto_id (ventas_aggregadas db_tres))
  /\ ~ In 2 (map est_producto_id (estacionalidad db_tres))
  /\ In 2 (map alerta_producto_id (alertas_stock db_tres)).
Proof.
  destruct (documentos_solo_con_filas db_vacia lote_tres db_tres mensaje_ok sync_tres 2)
    as (Hv & He & Ha).
  assert (Hno : ~ con_salida 2 lote_tres).
  { intros (r & Hin & Hs & Hp).
    repeat (destruct Hin as [<-|Hin]; [discriminate|]). contradiction. }
  split; [|split].
  - intros H. exact (Hno (proj1 Hv H)).
  - intros H. exact (Hno (proj1 He H)).
  - apply (proj2 Ha). exists (fila 2 "entrada" 20 "2024-01-02 00:00:00").
    split; [right; left; reflexivity|split; [left; reflexivity|reflexivity]].
Defined.

(** X6. When the run answers 200, each collection lists its products in the
    order in which they first appear in the batch: sales and seasonality
    documents among the [salida] rows, stock alerts among the [entrada] and
    [salida] rows. *)
Theorem orden_de_documentos :
  forall db df db' msg,
    sync_local_csv db df = (db', Response200 msg) ->
    map venta_producto_id (ventas_aggregadas db')
    = primeras (map producto_id (filter es_salida df))
    /\ map est_producto_id (estacionalidad db')
       = primeras (map producto_id (filter es_salida df))
    /\ map alerta_producto_id (alertas_stock db')
       = primeras (map producto_id (filter tipo_conocido df)).
Proof.
  intros db df db' msg Hsync.
  apply sync_200 in Hsync. destruct Hsync as (acc & Hloop & ->).
  unfold todo_escrito. cbn [ventas_aggregadas alertas_stock estacionalidad].
  rewrite map_id_venta_doc, map_id_est_doc, map_id_alerta_doc.
  exact (loop_orden _ _ _ Hloop).
Qed.

Lemma orden_de_documentos_witness :
  map venta_producto_id (ventas_aggregadas db_tres) = [1; 3]
  /\ map est_producto_id (estacionalidad db_tres) = [1; 3]
  /\ map alerta_producto_id (alertas_stock db_tres) = [1; 2; 3].
Proof.
  exact (orden_de_documentos db_vacia lote_tres db_tres mensaje_ok sync_tres).
Defined.

(** ** [get_alertas_stock] *)

Lemma contar_conteo c b n a :
  contar [(CRITICO, c); (BAJO, b); (NORMAL, n)] a
  = if String.eqb (alerta_estado a) CRITICO
    then Some [(CRITICO, c + 1); (BAJO, b); (NORMAL, n)]
    else if String.eqb (alerta_estado a) BAJO
         then Some [(CRITICO, c); (BAJO, b + 1); (NORMAL, n)]
         else if String.eqb (alerta_estado a) NORMAL
              then Some [(CRITICO, c); (BAJO, b); (NORMAL, n + 1)]
              else None.
Proof.
  unfold contar. cbn [get set].
  destruct (String.eqb (alerta_estado a) CRITICO); [reflexivity|].
  destruct (String.eqb (alerta_estado a) BAJO); [reflexivity|].
  destruct (String.eqb (alerta_estado a) NORMAL); reflexivity.
Qed.

Lemma cuenta_estado_cons estado a alertas :
  cuenta_estado estado (a :: alertas)
  = (if String.eqb (alerta_estado a) estado then 1 else 0)
    + cuenta_estado estado alertas.
Proof.
  unfold cuenta_estado. cbn [filter].
  destruct (String.eqb (alerta_estado a) estado); cbn [List.length]; lia.
Qed.

Ltac estados_eqb :=
  try change (String.eqb CRITICO CRITICO) with true;
  try change (String.eqb CRITICO BAJO) with false;
  try change (String.eqb CRITICO NORMAL) with false;
  try change (String.eqb BAJO CRITICO) with false;
  try change (String.eqb BAJO BAJO) with true;
  try change (String.eqb BAJO NORMAL) with false;
  try change (String.eqb NORMAL CRITICO) with false;
  try change (String.eqb NORMAL BAJO) with false;
  try change (String.eqb NORMAL NORMAL) with true;
  cbv iota.

Lemma contar_todas_conocidos alertas :
  Forall (fun a => In (alerta_estado a) estados) alertas ->
  forall c b n,
    contar_todas alertas [(CRITICO, c); (BAJO, b); (NORMAL, n)]
    = Some [(CRITICO, c + cuenta_estado CRITICO alertas);
            (BAJO, b + cuenta_estado BAJO alertas);
            (NORMAL, n + cuenta_estado NORMAL alertas)].
Proof.
  induction 1 as [|a alertas Ha _ IH]; intros c b n.
  - cbn. now rewrite !Z.add_0_r.
  - cbn [contar_todas]. rewrite contar_conteo, !cuenta_estado_cons.
    destruct Ha as [Ha|[Ha|[Ha|[]]]]; rewrite <- Ha; estados_eqb;
      rewrite IH, ?Z.add_0_l, ?Z.add_assoc; reflexivity.
Qed.

Lemma contar_todas_ajeno alertas :
  ~ Forall (fun a => In (alerta_estado a) estados) alertas ->
  forall c b n, contar_todas alertas [(CRITICO, c); (BAJO, b); (NORMAL, n)] = None.
Proof.
  induction alertas as [|a alertas IH]; intros Hno c b n.
  - exfalso. apply Hno. constructor.
  - cbn [contar_todas]. rewrite contar_conteo.
    assert (Hrest : In (alerta_estado a) estados ->
                    ~ Forall (fun a => In (alerta_estado a) estados) alertas).
    { intros Ha Hall. apply Hno. now constructor. }
    destruct (String.eqb_spec (alerta_estado a) CRITICO) as [E|E1].
    { apply IH, Hrest. rewrite E. now left. }
    destruct (String.eqb_spec (alerta_estado a) BAJO) as [E|E2].
    { apply IH, Hrest. rewrite E. right. now left. }
    destruct (String.eqb_spec (alerta_estado a) NORMAL) as [E|E3].
    { apply IH, Hrest. rewrite E. right. right. now left. }
    reflexivity.
Qed.

(** X7. [get_alertas_stock] answers with the labels CRÍTICO, BAJO, NORMAL
    and, under each, the number of alerts of the collection in that state,
    provided every alert is in one of the three states; an alert in any other
    state makes it raise ([KeyError]) instead of answering. An empty
    collection gives three zeros. *)
Theorem get_alertas_stock_conteo :
  forall db,
    (Forall (fun a => In (alerta_estado a) estados) (alertas_stock db) ->
     get_alertas_stock db
     = Some (estados, [cuenta_estado CRITICO (alertas_stock db);
                       cuenta_estado BAJO (alertas_stock db);
                       cuenta_estado NORMAL (alertas_stock db)]))
    /\ (~ Forall (fun a => In (alerta_estado a) estados) (alertas_stock db) ->
        get_alertas_stock db = None)
    /\ (alertas_stock db = [] -> get_alertas_stock db = Some (estados, [0; 0; 0])).
Proof.
  intros db. unfold get_alertas_stock, conteo0. split; [|split].
  - intros H. now rewrite (contar_todas_conocidos _ H).
  - intros H. now rewrite (contar_todas_ajeno _ H).
  - intros ->. reflexivity.
Qed.

Lemma get_alertas_stock_conteo_witness :
  get_alertas_stock db_tres = Some (estados, [1; 1; 1])
  /\ get_alertas_stock db_estado_ajeno = None
  /\ get_alertas_stock db_vacia = Some (estados, [0; 0; 0]).
Proof.
  split; [|split].
  - destruct (get_alertas_stock_conteo db_tres) as (H & _ & _).
    rewrite H; [reflexivity|].
    repeat constructor; cbn; tauto.
  - destruct (get_alertas_stock_conteo db_estado_ajeno) as (_ & H & _).
    apply H. intros Hall. inversion Hall as [|? ? Hin _]; subst.
    cbn in Hin. destruct Hin as [E|[E|[E|[]]]]; discriminate E.
  - destruct (get_alertas_stock_conteo db_vacia) as (_ & _ & H).
    apply H. reflexivity.
Defined.

Lemma estado_de_eqb s :
  String.eqb (estado_de s) CRITICO = (s <? 10)
  /\ String.eqb (estado_de s) BAJO = (10 <=? s) && (s <? 50)
  /\ String.eqb (estado_de s) NORMAL = (50 <=? s).
Proof.
  unfold estado_de.
  destruct (Z.ltb_spec s 10); [|destruct (Z.ltb_spec s 50)];
    destruct (Z.leb_spec 10 s); destruct (Z.leb_spec 50 s);
    try lia; repeat split; reflexivity.
Qed.

Lemma cuenta_estado_stock acc estado cond :
  (forall s, String.eqb (estado_de s) estado = cond s) ->
  cuenta_estado estado (map alerta_doc acc)
  = Z.of_nat (List.length (filter (fun a => cond (alerta_stock_actual a))
                                  (map alerta_doc acc))).
Proof.
  intros H. unfold cuenta_estado. do 2 f_equal.
  apply filter_ext_in. intros a Ha. apply in_map_iff in Ha.
  destruct Ha as ([k v] & <- & _). apply H.
Qed.

Lemma length_filter_tres {A : Type} (f g h : A -> bool) (l : list A) :
  (forall x, In x l ->
     (if f x then 1 else 0) + (if g x then 1 else 0) + (if h x then 1 else 0) = 1) ->
  Z.of_nat (List.length (filter f l)) + Z.of_nat (List.length (filter g l))
  + Z.of_nat (List.length (filter h l)) = Z.of_nat (List.length l).
Proof.
  induction l as [|x l IH]; intros H; [reflexivity|].
  assert (Hx := H x (or_introl eq_refl)).
  assert (Hl : forall y, In y l ->
     (if f y then 1 else 0) + (if g y then 1 else 0) + (if h y then 1 else 0) = 1)
    by (intros y Hy; apply H; now right).
  specialize (IH Hl). cbn [filter].
  destruct (f x), (g x), (h x); cbn [List.length]; lia.
Qed.

(** X8. After a run that answers 200, [get_alertas_stock] always answers:
    its three values are the numbers of products whose stock is below 10,
    from 10 to 49, and 50 or more, and they add up to the number of stock
    alerts written. *)
Theorem get_alertas_stock_tras_sync :
  forall db df db' msg,
    sync_local_csv db df = (db', Response200 msg) ->
    get_alertas_stock db'
    = Some (estados,
            [cuenta_stock (fun s => s <? 10) db';
             cuenta_stock (fun s => (10 <=? s) && (s <? 50)) db';
             cuenta_stock (fun s => 50 <=? s) db'])
    /\ cuenta_stock (fun s => s <? 10) db'
       + cuenta_stock (fun s => (10 <=? s) && (s <? 50)) db'
       + cuenta_stock (fun s => 50 <=? s) db'
       = Z.of_nat (List.length (alertas_stock db')).
Proof.
  intros db df db' msg Hsync.
  apply sync_200 in Hsync. destruct Hsync as (acc & _ & ->).
  unfold get_alertas_stock, conteo0, cuenta_stock.
  unfold todo_escrito. cbn [alertas_stock]. split.
  - rewrite contar_todas_conocidos.
    + rewrite (cuenta_estado_stock _ CRITICO (fun s => s <? 10)),
        (cuenta_estado_stock _ BAJO (fun s => (10 <=? s) && (s <? 50))),
        (cuenta_estado_stock _ NORMAL (fun s => 50 <=? s));
        try (intros s; apply estado_de_eqb).
      reflexivity.
    + apply Forall_forall. intros a Ha. apply in_map_iff in Ha.
      destruct Ha as ([k v] & <- & _). cbn [alerta_doc alerta_estado snd].
      unfold estado_de, estados.
      destruct (v <? 10); [now left|]. destruct (v <? 50); cbn; tauto.
  - apply length_filter_tres. intros a _.
    destruct (Z.ltb_spec (alerta_stock_actual a) 10);
      destruct (Z.leb_spec 10 (alerta_stock_actual a));
      destruct (Z.ltb_spec (alerta_stock_actual a) 50);
      destruct (Z.leb_spec 50 (alerta_stock_actual a)); cbn; lia.
Qed.

Lemma get_alertas_stock_tras_sync_witness :
  get_alertas_stock db_tres = Some (estados, [1; 1; 1])
  /\ Z.of_nat (List.length (alertas_stock db_tres)) = 3.
Proof.
  destruct (get_alertas_stock_tras_sync db_vacia lote_tres db_tres mensaje_ok sync_tres)
    as [Hget Hsum].
  split; [rewrite Hget; reflexivity|reflexivity].
Defined.

(** ** [get_top_ventas] *)

Lemma leb_trans : Transitive (fun x y => is_true (VentaOrder.leb x y)).
Proof.
  intros x y z. unfold VentaOrder.leb, is_true. rewrite !Z.leb_le. lia.
Qed.

Lemma StronglySorted_app_dom {A : Type} (R : A -> A -> Prop) (l1 l2 : list A) :
  StronglySorted R (l1 ++ l2) ->
  StronglySorted R l1 /\ forall x y, In x l1 -> In y l2 -> R x y.
Proof.
  induction l1 as [|a l1 IH]; cbn [app]; intros H.
  - split; [constructor|intros x y []].
  - apply StronglySorted_inv in H. destruct H as [Hs Hall].
    destruct (IH Hs) as [Hs1 Hdom]. apply Forall_app in Hall.
    destruct Hall as [Hall1 Hall2]. split; [now constructor|].
    intros x y [<-|Hx] Hy; [|now apply Hdom].
    now apply (proj1 (Forall_forall _ _) Hall2).
Qed.

Lemma StronglySorted_totales (l : list Venta) :
  StronglySorted (fun x y => is_true (VentaOrder.leb x y)) l ->
  StronglySorted descendente (map venta_total_ventas l).
Proof.
  induction 1 as [|x l Hs IH Hall]; cbn [map]; constructor; [exact IH|].
  apply Forall_forall. intros t Ht. apply in_map_iff in Ht.
  destruct Ht as (y & <- & Hy).
  apply (proj1 (Forall_forall _ _) Hall) in Hy.
  unfold VentaOrder.leb, is_true in Hy. apply Z.leb_le in Hy. exact Hy.
Qed.

Lemma limit_split {A : Type} (n : N) (l : list A) :
  exists resto, l = limit n l ++ resto
                /\ ((n = 0)%N \/ (List.length l <= N.to_nat n)%nat -> resto = []).
Proof.
  unfold limit. destruct (N.eqb_spec n 0) as [->|Hn].
  - exists []. split; [now rewrite app_nil_r|reflexivity].
  - exists (skipn (N.to_nat n) l). split; [now rewrite firstn_skipn|].
    intros [H|H]; [contradiction|]. now apply skipn_all2.
Qed.

Lemma sum_Z_perm (l l' : list Z) : Permutation l l' -> sum_Z l = sum_Z l'.
Proof. unfold sum_Z. induction 1; cbn [fold_right]; lia. Qed.

(** X9. [get_top_ventas] answers with one label per value; the values come
    in descending order; with a limit [n] other than 0 there are at most [n]
    of them, with 0 there is one per document; and the documents left out
    never have a larger total than a document that is shown. *)
Theorem get_top_ventas_mayores :
  forall db n,
    List.length (fst (get_top_ventas db n)) = List.length (snd (get_top_ventas db n))
    /\ List.length (snd (get_top_ventas db n))
       = (if (n =? 0)%N then List.length (ventas_aggregadas db)
          else Nat.min (N.to_nat n) (List.length (ventas_aggregadas db)))
    /\ StronglySorted descendente (snd (get_top_ventas db n))
    /\ exists resto,
         Permutation (ventas_aggregadas db) (top_ventas db n ++ resto)
         /\ forall x y, In x (top_ventas db n) -> In y resto ->
                        venta_total_ventas y <= venta_total_ventas x.
Proof.
  intros db n. unfold get_top_ventas. cbn [fst snd].
  pose proof (VentaSort.Permuted_sort (ventas_aggregadas db)) as Hperm.
  pose proof (VentaSort.StronglySorted_sort (ventas_aggregadas db) leb_trans) as Hsort.
  destruct (limit_split n (VentaSort.sort (ventas_aggregadas db))) as (resto & Hsplit & _).
  fold (top_ventas db n) in Hsplit. rewrite Hsplit in Hsort.
  apply StronglySorted_app_dom in Hsort. destruct Hsort as [Htop Hdom].
  split; [now rewrite !length_map|]. split; [|split].
  - rewrite length_map. unfold top_ventas, limit.
    rewrite (Permutation_length Hperm).
    destruct (n =? 0)%N; [reflexivity|apply length_firstn].
  - now apply StronglySorted_totales.
  - exists resto. split; [now rewrite <- Hsplit|].
    intros x y Hx Hy. specialize (Hdom x y Hx Hy).
    unfold VentaOrder.leb, is_true in Hdom. now apply Z.leb_le in Hdom.
Qed.

(** X10. After a run that answers 200, every label of [get_top_ventas] is
    "Producto <id>" of the document it stands for, and when nothing is cut
    off (limit 0, or a limit of at least the number of products sold) the
    values add up to the quantities of the [salida] rows of the batch. *)
Theorem get_top_ventas_tras_sync :
  forall db df db' msg n,
    sync_local_csv db df = (db', Response200 msg) ->
    fst (get_top_ventas db' n)
    = map nombre_base (map venta_producto_id (top_ventas db' n))
    /\ ((n = 0)%N \/ (List.length (ventas_aggregadas db') <= N.to_nat n)%nat ->
        sum_Z (snd (get_top_ventas db' n)) = total_salidas df).
Proof.
  intros db df db' msg n Hsync.
  apply sync_200 in Hsync. destruct Hsync as (acc & Hloop & ->).
  unfold get_top_ventas. cbn [fst snd].
  pose proof (VentaSort.Permuted_sort (ventas_aggregadas (todo_escrito acc))) as Hperm.
  destruct (limit_split n (VentaSort.sort (ventas_aggregadas (todo_escrito acc))))
    as (resto & Hsplit & Hall).
  fold (top_ventas (todo_escrito acc) n) in Hsplit. split.
  - rewrite map_map. apply map_ext_in. intros v Hv.
    assert (Hin : In v (ventas_aggregadas (todo_escrito acc))).
    { apply (Permutation_in _ (Permutation_sym Hperm)).
      rewrite Hsplit. apply in_or_app. now left. }
    unfold todo_escrito in Hin. cbn [ventas_aggregadas] in Hin.
    apply in_map_iff in Hin. destruct Hin as ([k t] & <- & _). reflexivity.
  - intros Hn. rewrite <- (Permutation_length Hperm) in Hall.
    rewrite (Hall Hn), app_nil_r in Hsplit. rewrite <- Hsplit.
    rewrite <- (sum_Z_perm _ _ (Permutation_map venta_total_ventas Hperm)).
    unfold todo_escrito. cbn [ventas_aggregadas].
    rewrite map_total_venta_doc, (loop_sum_ventas _ _ _ Hloop). reflexivity.
Qed.

Lemma get_top_ventas_tras_sync_witness :
  fst (get_top_ventas db_tres 1) = ["Producto 1"]
  /\ sum_Z (snd (get_top_ventas db_tres 0)) = 95.
Proof.
  split.
  - destruct (get_top_ventas_tras_sync db_vacia lote_tres db_tres mensaje_ok 1 sync_tres)
      as [H _].
    rewrite H. reflexivity.
  - destruct (get_top_ventas_tras_sync db_vacia lote_tres db_tres mensaje_ok 0 sync_tres)
      as [_ H].
    rewrite H; [reflexivity|now left].
Defined.

(** ** [get_ventas_estacionalidad] and the curves of [graficar_estacionalidad] *)

Lemma labels_no_meses l : In l labels -> ~ In l meses_en.
Proof.
  unfold labels, meses_en. cbn [In].
  intros H1 H2. repeat destruct H1 as [H1|H1]; try contradiction; subst l;
    repeat destruct H2 as [H2|H2]; try contradiction; discriminate H2.
Qed.

Lemma dataset_ceros df acc e :
  for_each loop_body df acc0 = Ok acc ->
  In e (estacionalidad (todo_escrito acc)) ->
  dataset e = (nombre_base (est_producto_id e), repeat 0 12).
Proof.
  intros Hloop Hin.
  destruct (est_doc_inner _ _ _ Hloop Hin) as (_ & Hincl & _).
  unfold dataset. f_equal.
  - unfold todo_escrito in Hin. cbn [estacionalidad] in Hin.
    apply in_map_iff in Hin. destruct Hin as ([k inner] & <- & _). reflexivity.
  - change (repeat 0 12) with (map (fun _ : string => 0) labels).
    apply map_ext_in. intros l Hl. unfold getd.
    destruct (get String.eqb (est_ventas_por_mes e) l) eqn:E; [|reflexivity].
    exfalso. apply (labels_no_meses l Hl), Hincl.
    apply (get_Some_In String.eqb String.eqb_spec) in E.
    change l with (fst (l, z)). now apply in_map.
Qed.

Lemma estacionalidad_vacia df acc :
  for_each loop_body df acc0 = Ok acc ->
  (estacionalidad (todo_escrito acc) = [] <-> filter es_salida df = []).
Proof.
  intros Hloop. unfold todo_escrito. cbn [estacionalidad].
  pose proof (loop_keys_ventas_por_mes _ _ _ Hloop) as Hkeys.
  cbn [acc0 ventas_por_mes keys map In] in Hkeys. split; intros H.
  - destruct (filter es_salida df) as [|r l] eqn:E; [reflexivity|exfalso].
    assert (Hr : In r (filter es_salida df)) by (rewrite E; now left).
    apply filter_In in Hr. destruct Hr as [Hin Hs].
    assert (Hk : In (producto_id r) (keys (ventas_por_mes acc))).
    { apply Hkeys. right. now exists r. }
    unfold keys in Hk. apply map_eq_nil in H. rewrite H in Hk. exact Hk.
  - destruct (ventas_por_mes acc) as [|[k inner] vpm]; [reflexivity|exfalso].
    destruct (proj1 (Hkeys k)) as [[]|(r & Hin & Hs & _)]; [now left|].
    assert (Hr : In r (filter es_salida df)) by (apply filter_In; now split).
    rewrite H in Hr. exact Hr.
Qed.

(** X11. Every key of every [ventas_por_mes] written by a run that answers
    200 is one of the twelve lowercase English month names, no key occurs
    twice in a document, and no key is one of the Spanish labels under which
    the reading endpoint and the chart look the values up. *)
Theorem claves_de_ventas_por_mes :
  forall db df db' msg,
    sync_local_csv db df = (db', Response200 msg) ->
    forall e, In e (estacionalidad db') ->
      incl (keys (est_ventas_por_mes e)) meses_en
      /\ NoDup (keys (est_ventas_por_mes e))
      /\ forall mes, In mes (keys (est_ventas_por_mes e)) -> ~ In mes labels.
Proof.
  intros db df db' msg Hsync e Hin.
  apply sync_200 in Hsync. destruct Hsync as (acc & Hloop & ->).
  destruct (est_doc_inner _ _ _ Hloop Hin) as (_ & Hincl & Hnd).
  split; [exact Hincl|split; [exact Hnd|]].
  intros mes Hmes Hlab. exact (labels_no_meses mes Hlab (Hincl mes Hmes)).
Qed.

Lemma claves_de_ventas_por_mes_witness :
  Forall (fun e => incl (keys (est_ventas_por_mes e)) meses_en
                   /\ NoDup (keys (est_ventas_por_mes e)))
         (estacionalidad db_tres)
  /\ map (fun e => keys (est_ventas_por_mes e)) (estacionalidad db_tres)
     = [["january"; "july"]; ["march"]].
Proof.
  split; [|reflexivity].
  apply Forall_forall. intros e He.
  destruct (claves_de_ventas_por_mes db_vacia lote_tres db_tres mensaje_ok sync_tres e He)
    as (H1 & H2 & _).
  split; assumption.
Defined.

(** X12. After a run that answers 200, [get_ventas_estacionalidad] answers
    404 when the batch had no [salida] row, and otherwise answers with the
    twelve Spanish labels and, for every sampled document, the name
    "Producto <id>" with twelve zeros, because the run stores the values
    under English month names; the three curves of [graficar_estacionalidad]
    are flat at zero for the same reason. *)
Theorem get_ventas_estacionalidad_tras_sync :
  forall db df db' msg muestra,
    sync_local_csv db df = (db', Response200 msg) ->
    es_muestra db' muestra ->
    (filter es_salida df = [] -> get_ventas_estacionalidad muestra = None)
    /\ (filter es_salida df <> [] ->
        get_ventas_estacionalidad muestra
        = Some (labels,
                map (fun e => (nombre_base (est_producto_id e), repeat 0 12)) muestra))
    /\ Forall (fun c => snd c = repeat 0 12) (curvas_estacionalidad db').
Proof.
  intros db df db' msg muestra Hsync (Hincl & _ & Hvacia).
  apply sync_200 in Hsync. destruct Hsync as (acc & Hloop & ->).
  pose proof (estacionalidad_vacia df acc Hloop) as Hiff.
  split; [|split].
  - intros H. apply Hiff, Hvacia in H. now rewrite H.
  - intros H.
    assert (Hds : map dataset muestra
                  = map (fun e => (nombre_base (est_producto_id e), repeat 0 12))
                        muestra).
    { apply map_ext_in. intros x Hx.
      apply (dataset_ceros df acc); [exact Hloop|now apply Hincl]. }
    unfold get_ventas_estacionalidad. rewrite <- Hds.
    destruct muestra as [|e resto]; [|reflexivity].
    exfalso. apply H, Hiff, Hvacia. reflexivity.
  - unfold curvas_estacionalidad. apply Forall_forall. intros c Hc.
    apply in_map_iff in Hc. destruct Hc as (e & <- & He).
    assert (Hin : In e (estacionalidad (todo_escrito acc))).
    { rewrite <- (firstn_skipn 3). apply in_or_app. now left. }
    now rewrite (dataset_ceros df acc e Hloop Hin).
Qed.

Lemma get_ventas_estacionalidad_tras_sync_witness :
  get_ventas_estacionalidad (estacionalidad db_tres)
  = Some (labels, [("Producto 1", repeat 0 12); ("Producto 3", repeat 0 12)])
  /\ Forall (fun c => snd c = repeat 0 12) (curvas_estacionalidad db_tres).
Proof.
  destruct (get_ventas_estacionalidad_tras_sync db_vacia lote_tres db_tres mensaje_ok
              (estacionalidad db_tres) sync_tres) as (_ & Hsome & Hcurvas).
  - split; [apply incl_refl|split; [vm_compute; lia|split; intros H; exact H]].
  - split; [|exact Hcurvas]. rewrite Hsome; [reflexivity|discriminate].
Defined.

Lemma get_top_ventas_mayores_witness :
  get_top_ventas db_tres 1 = (["Producto 1"], [50])
  /\ StronglySorted descendente (snd (get_top_ventas db_tres 0))
  /\ List.length (snd (get_top_ventas db_tres 1)) = 1%nat.
Proof.
  destruct (get_top_ventas_mayores db_tres 0) as (_ & _ & Hsorted & _).
  destruct (get_top_ventas_mayores db_tres 1) as (_ & Hlen & _).
  split; [reflexivity|split; [exact Hsorted|rewrite Hlen; reflexivity]].
Defined.

(** ** Rows that are received: the date is not read *)

Lemma volumen_cons r df : volumen (r :: df) = Z.abs (cantidad r) + volumen df.
Proof. reflexivity. Qed.

Lemma volumen_nonneg df : 0 <= volumen df.
Proof.
  induction df as [|r df IH]; [unfold volumen; cbn; lia|].
  rewrite volumen_cons. lia.
Qed.








